(** * Shallow embedding of the hdf component library

    The repository is a set of React function components written in
    TypeScript.  A component is embedded as a Rocq function from its props
    (and, where it has some, its hook state) to the React node it returns;
    effects registered with [useEffect] are embedded as functions on an
    explicit document state and produce a trace of the calls they make into
    functions owned by the caller. *)

From stdpp Require Import gmap strings list pretty.

Set Warnings "-register-all".
Open Scope Z_scope.
Open Scope string_scope.

(** ** JavaScript values and React nodes *)

Module JS.

(** Values.  A React element is an ordinary JavaScript value, so that it can
    be a child as well as a prop ([control={<Checkbox/>}]).  Functions are
    defunctionalised: [FExt] is a function the component receives (from its
    caller, or from the form context) and knows by reference only; every
    other constructor is one arrow expression of the source, with the
    number of the render that allocated it and the variables it captures. *)
Inductive jsval : Type :=
| VUndef
| VNull
| VBool (b : bool)
| VNum (n : Z)
| VStr (s : string)
| VFun (f : fn)
| VObj (o : gmap string jsval)
| VElem (type : string) (props : gmap string jsval) (children : list jsval)
| VPortal (child : jsval) (container : string)
with fn : Type :=
| FExt (id : nat)
    (* a function received from outside *)
| FArrowEmpty (site : string) (r : nat)
    (* [() => {}] *)
| FArrowNull (site : string) (r : nat)
    (* [() => null] *)
| FBackdropOnClick (r : nat) (requestCloseOnBackdropClick : bool)
    (onRequestClose : fn)
    (* Modal: [() => requestCloseOnBackdropClick && onRequestClose()] *)
| FCloseListener (r : nat) (isOpen requestCloseOnEscClick : bool)
    (onRequestClose : fn)
    (* Modal: [closeListener] *)
| FRenderItem (r : nat) (itemProps : jsval)
    (* CustomPagination: [(item) => <PaginationItem {...item} {...itemProps} />] *)
| FRadioOnChange (r : nat) (bound : option (nat * string))
    (* FormikRadioGroup: the [onChange] arrow; [bound] is
       [(formik.setFieldValue, name)] when [formik && name] holds *)
| FHandleChange (r : nat).
    (* CustomTabs: [handleChange], which calls [setActiveTab(newValue)] *)

Abbreviation jsobj := (gmap string jsval).

(** Reference identity of functions ([Object.is] on two functions). *)
Inductive fnref : Type :=
| RExt (id : nat)
| RAlloc (site : string) (r : nat).

Global Instance fnref_eq_dec : EqDecision fnref.
Proof. solve_decision. Defined.

Definition ref_of (f : fn) : fnref :=
  match f with
  | FExt id => RExt id
  | FArrowEmpty site r => RAlloc site r
  | FArrowNull site r => RAlloc site r
  | FBackdropOnClick r _ _ => RAlloc "backdrop.onClick" r
  | FCloseListener r _ _ _ => RAlloc "closeListener" r
  | FRenderItem r _ => RAlloc "renderItem" r
  | FRadioOnChange r _ => RAlloc "RadioGroup.onChange" r
  | FHandleChange r => RAlloc "handleChange" r
  end.

Definition same_fn (f g : fn) : bool := bool_decide (ref_of f = ref_of g).

(** [ToBoolean]. *)
Definition truthy (v : jsval) : bool :=
  match v with
  | VUndef | VNull => false
  | VBool b => b
  | VNum n => negb (Z.eqb n 0)
  | VStr s => negb (String.eqb s "")
  | _ => true
  end.

(** [a || b], [a && b], [a ?? b]. *)
Definition js_or (a b : jsval) : jsval := if truthy a then a else b.
Definition js_and (a b : jsval) : jsval := if truthy a then b else a.
Definition js_nullish (a b : jsval) : jsval :=
  match a with VUndef | VNull => b | _ => a end.

(** Property read [o.k]; a missing property reads as [undefined]. *)
Definition get (o : jsobj) (k : string) : jsval := default VUndef (o !! k).

(** Optional chaining [v?.k]. *)
Definition get_opt (v : jsval) (k : string) : jsval :=
  match v with VObj o => get o k | _ => VUndef end.

(** The own properties that [...v] copies. *)
Definition spread (v : jsval) : jsobj :=
  match v with VObj o => o | _ => ∅ end.

Definition of_str (o : option string) : jsval := from_option VStr VUndef o.
Definition of_bool (o : option bool) : jsval := from_option VBool VUndef o.

(** A truthy [name?: string] is a non-empty string. *)
Definition truthy_name (name : option string) : option string :=
  match name with
  | Some s => if String.eqb s "" then None else Some s
  | None => None
  end.

(** JSX attribute lists: a later attribute overrides an earlier one. *)
Inductive attr : Type :=
| Attr (k : string) (v : jsval)
| Spread (o : jsobj).

Definition add_attr (acc : jsobj) (a : attr) : jsobj :=
  match a with
  | Attr k v => <[k := v]> acc
  | Spread o => o ∪ acc
  end.

Definition jsx (attrs : list attr) : jsobj := foldl add_attr ∅ attrs.

(** Rest pattern: the props left after the named ones are taken out. *)
Definition rest_without (names : list string) (P : jsobj) : jsobj :=
  foldr delete P names.

(** What a component does that can be seen from outside. *)
Inductive event : Type :=
| Invoked (id : nat) (args : list jsval)
| ConsoleWarn (msg : string)
| SetState (slot : string) (v : jsval).

(** Rendering either returns a node or throws. *)
Inductive outcome (A : Type) : Type :=
| Returned (a : A)
| Threw (err : string).
Arguments Returned {A} a.
Arguments Threw {A} err.

Definition key_of (args : list jsval) : jsval :=
  match args with
  | e :: _ => get_opt e "key"
  | [] => VUndef
  end.

Definition is_escape (v : jsval) : bool :=
  match v with VStr s => String.eqb s "Escape" | _ => false end.

(** [event.target.value] of the first argument. *)
Definition target_value (args : list jsval) : jsval :=
  match args with
  | e :: _ => get_opt (get_opt e "target") "value"
  | [] => VUndef
  end.

(** Calling a function value: the calls into outside functions it makes. *)
Fixpoint call (f : fn) (args : list jsval) : list event :=
  match f with
  | FExt id => [Invoked id args]
  | FArrowEmpty _ _ => []
  | FArrowNull _ _ => []
  | FBackdropOnClick _ requestCloseOnBackdropClick onRequestClose =>
      if requestCloseOnBackdropClick then call onRequestClose [] else []
  | FCloseListener _ isOpen requestCloseOnEscClick onRequestClose =>
      if isOpen && is_escape (key_of args) && requestCloseOnEscClick
      then call onRequestClose []
      else []
  | FRenderItem _ _ => []
  | FRadioOnChange _ bound =>
      match bound with
      | Some (setFieldValue, name) =>
          [Invoked setFieldValue [VStr name; target_value args]]
      | None => []
      end
  | FHandleChange _ => [SetState "activeTab" (nth 1 args VUndef)]
  end.

Definition call_val (v : jsval) (args : list jsval) : outcome (list event) :=
  match v with
  | VFun f => Returned (call f args)
  | _ => Threw "TypeError: not a function"
  end.

End JS.
Export JS.

(** ** The form context (the part of formik's API the inputs use)

    formik is a dependency of the repository, not part of it: the records
    below follow the type names the inputs import from it, and the context
    is a parameter of every input. *)

Module Formik.

(** [FieldInputProps<any>]: [checked] and [multiple] are optional. *)
Record FieldInputProps : Type := mkField {
  field_name : string;
  field_value : jsval;
  field_onChange : fn;
  field_onBlur : fn;
  field_checked : option bool;
  field_multiple : option bool }.

(** [FieldMetaProps<any>]: [error?: string], [touched: boolean]. *)
Record FieldMetaProps : Type := mkMeta {
  meta_value : jsval;
  meta_error : option string;
  meta_touched : bool;
  meta_initialError : option string;
  meta_initialTouched : bool;
  meta_initialValue : jsval }.

(** The argument of [getFieldProps]: a name, or [{ name, type }]. *)
Inductive nameOrOptions : Type :=
| ByName (name : string)
| ByOptions (name : string) (type : string).

(** The value of [useContext(FormikContext)] inside a form; outside a form
    the hook returns [undefined], which is [None] below. *)
Record FormikContextType : Type := mkFormik {
  getFieldProps : nameOrOptions -> FieldInputProps;
  getFieldMeta : string -> FieldMetaProps;
  setFieldValue : nat }.

(** The own properties of a field object, as [{...field}] copies them. *)
Definition field_obj (field : FieldInputProps) : jsobj :=
  jsx [Attr "name" (VStr (field_name field));
       Attr "value" (field_value field);
       Attr "onChange" (VFun (field_onChange field));
       Attr "onBlur" (VFun (field_onBlur field));
       Spread (from_option (fun b => {[ "checked" := VBool b ]}) ∅
                 (field_checked field));
       Spread (from_option (fun b => {[ "multiple" := VBool b ]}) ∅
                 (field_multiple field))].

(** [field.checked]. *)
Definition checked_of (field : FieldInputProps) : jsval :=
  of_bool (field_checked field).

(** [meta.error]. *)
Definition error_of (meta : FieldMetaProps) : jsval :=
  of_str (meta_error meta).

(** The [meta] literal of the [else] branch, the same in every input. *)
Definition default_meta : FieldMetaProps :=
  {| meta_value := VStr "";
     meta_error := None;
     meta_touched := false;
     meta_initialError := None;
     meta_initialTouched := false;
     meta_initialValue := VStr "" |}.

(** [const showError = Boolean(meta.touched && meta.error)]. *)
Definition showError (meta : FieldMetaProps) : bool :=
  truthy (js_and (VBool (meta_touched meta)) (error_of meta)).

End Formik.
Export Formik.

(** ** The form inputs *)

Module Inputs.

(** The [if (formik && name) ... else ...] block of FormikTextField,
    FormikCustomTextarea and FormikRadioGroup (the three are the same
    text); [r] numbers the render, to tell the arrows of one render from
    those of another. *)
Definition bind_text (formik : option FormikContextType) (r : nat)
    (name : option string) : FieldInputProps * FieldMetaProps :=
  match formik, truthy_name name with
  | Some formik, Some name =>
      (getFieldProps formik (ByName name), getFieldMeta formik name)
  | _, _ =>
      ({| field_name := default "" (truthy_name name);
          field_value := VStr "";
          field_onChange := FArrowEmpty "field.onChange" r;
          field_onBlur := FArrowEmpty "field.onBlur" r;
          field_checked := None;
          field_multiple := None |},
       default_meta)
  end.

(** The same block in FormikCheckbox and FormikSwitch: the field is asked
    for with [type: 'checkbox'] and the default has [checked: false]. *)
Definition bind_checkbox (formik : option FormikContextType) (r : nat)
    (name : option string) : FieldInputProps * FieldMetaProps :=
  match formik, truthy_name name with
  | Some formik, Some name =>
      (getFieldProps formik (ByOptions name "checkbox"),
       getFieldMeta formik name)
  | _, _ =>
      ({| field_name := default "" (truthy_name name);
          field_value := VStr "";
          field_onChange := FArrowEmpty "field.onChange" r;
          field_onBlur := FArrowEmpty "field.onBlur" r;
          field_checked := Some false;
          field_multiple := None |},
       default_meta)
  end.

(** FormikTextField: [({ name, ...props })]. *)
Definition FormikTextField (formik : option FormikContextType) (r : nat)
    (name : option string) (rest : jsobj) : jsval :=
  let props := rest_without ["name"] rest in
  let '(field, meta) := bind_text formik r name in
  let showError := showError meta in
  VElem "TextField"
    (jsx [Spread (field_obj field);
          Spread props;
          Attr "name" (of_str name);
          Attr "error" (js_or (VBool showError) (get props "error"));
          Attr "helperText"
            (if showError then error_of meta else get props "helperText")])
    [].

(** FormikCheckbox:
    [({ name, label, labelSx, checkboxSx, helperTextSx, ...props })]. *)
Definition FormikCheckbox (formik : option FormikContextType) (r : nat)
    (name : option string) (label labelSx checkboxSx helperTextSx : jsval)
    (rest : jsobj) : jsval :=
  let props :=
    rest_without ["name"; "label"; "labelSx"; "checkboxSx"; "helperTextSx"]
      rest in
  let '(field, meta) := bind_checkbox formik r name in
  let showError := showError meta in
  VElem "FormControl"
    (jsx [Attr "error" (VBool showError); Attr "component" (VStr "fieldset")])
    [VElem "FormControlLabel"
       (jsx [Attr "control"
               (VElem "Checkbox"
                  (jsx [Spread (field_obj field);
                        Spread props;
                        Attr "checked"
                          (js_or (checked_of field) (VBool false));
                        Attr "sx" checkboxSx;
                        Attr "name" (of_str name)])
                  []);
             Attr "label" label;
             Attr "sx" labelSx])
       [];
     js_and (VBool showError)
       (VElem "FormHelperText" (jsx [Attr "sx" helperTextSx])
          [error_of meta])].

(** FormikSwitch:
    [({ name, label, labelPlacement = 'end', FormControlProps,
        FormControlLabelProps, ...props })]. *)
Definition FormikSwitch (formik : option FormikContextType) (r : nat)
    (name : option string) (label : jsval) (labelPlacement : option string)
    (FormControlProps FormControlLabelProps : jsval) (rest : jsobj) : jsval :=
  let props :=
    rest_without ["name"; "label"; "labelPlacement"; "FormControlProps";
                  "FormControlLabelProps"] rest in
  let labelPlacement := default "end" labelPlacement in
  let '(field, meta) := bind_checkbox formik r name in
  let showError := showError meta in
  VElem "FormControl"
    (jsx [Attr "error" (VBool showError); Spread (spread FormControlProps)])
    [VElem "FormControlLabel"
       (jsx [Attr "control"
               (VElem "Switch"
                  (jsx [Spread (field_obj field);
                        Spread props;
                        Attr "checked"
                          (js_or (checked_of field) (VBool false));
                        Attr "name" (of_str name)])
                  []);
             Attr "label" label;
             Attr "labelPlacement" (VStr labelPlacement);
             Spread (spread FormControlLabelProps)])
       [];
     js_and (VBool showError)
       (VElem "FormHelperText" ∅ [error_of meta])].

(** FormikCustomTextarea: [({ sx, name, errorStyles, ...props })]; [sx] is
    taken out of the props and not used again. *)
Definition FormikCustomTextarea (formik : option FormikContextType) (r : nat)
    (sx : jsval) (name : option string) (errorStyles : jsval)
    (rest : jsobj) : jsval :=
  let props := rest_without ["sx"; "name"; "errorStyles"] rest in
  let '(field, meta) := bind_text formik r name in
  let showError := showError meta in
  VElem "div"
    (jsx [Attr "style"
            (VObj (jsx [Attr "position" (VStr "relative");
                        Attr "width" (VStr "100%")]))])
    [VElem "CustomTextarea"
       (jsx [Spread (field_obj field);
             Spread props;
             Attr "name" (of_str name);
             Attr "style"
               (VObj (jsx [Spread
                             (spread
                                (if showError
                                 then get_opt errorStyles "textarea"
                                 else VObj ∅))]));
             Attr "aria-invalid" (VBool showError)])
       [];
     js_and (VBool showError)
       (VElem "p"
          (jsx [Attr "style"
                  (VObj (jsx [Attr "color" (VStr "red");
                              Attr "fontSize" (VStr "0.75rem");
                              Attr "marginTop" (VStr "4px");
                              Spread
                                (spread (get_opt errorStyles "errorText"))]))])
          [error_of meta])].

(** [FormikRadioGroupOption]. *)
Record FormikRadioGroupOption : Type := mkOption {
  option_label : string;
  option_value : string }.

(** FormikRadioGroup:
    [({ name, label, options, row = false, FormControlProps, FormLabelProps,
        FormControlLabelProps, RadioProps, FormHelperTextProps,
        FormControlSx, FormLabelSx, RadioGroupSx, FormControlLabelSx,
        RadioSx, FormHelperTextSx, ...radioGroupProps })]. *)
Definition FormikRadioGroup (formik : option FormikContextType) (r : nat)
    (name : option string) (label : jsval)
    (options : list FormikRadioGroupOption) (row : option bool)
    (FormControlProps FormLabelProps FormControlLabelProps RadioProps
     FormHelperTextProps FormControlSx FormLabelSx RadioGroupSx
     FormControlLabelSx RadioSx FormHelperTextSx : jsval)
    (rest : jsobj) : jsval :=
  let radioGroupProps :=
    rest_without ["name"; "label"; "options"; "row"; "FormControlProps";
                  "FormLabelProps"; "FormControlLabelProps"; "RadioProps";
                  "FormHelperTextProps"; "FormControlSx"; "FormLabelSx";
                  "RadioGroupSx"; "FormControlLabelSx"; "RadioSx";
                  "FormHelperTextSx"] rest in
  let row := default false row in
  let '(field, meta) := bind_text formik r name in
  let showError := showError meta in
  VElem "FormControl"
    (jsx [Attr "component" (VStr "fieldset");
          Attr "error" (VBool showError);
          Spread (spread FormControlProps);
          Attr "sx" FormControlSx])
    [js_and label
       (VElem "FormLabel"
          (jsx [Spread (spread FormLabelProps); Attr "sx" FormLabelSx])
          [label]);
     VElem "RadioGroup"
       (jsx [Spread (field_obj field);
             Spread radioGroupProps;
             Attr "row" (VBool row);
             Attr "onChange"
               (VFun (FRadioOnChange r
                        (match formik, truthy_name name with
                         | Some formik, Some name =>
                             Some (setFieldValue formik, name)
                         | _, _ => None
                         end)));
             Attr "sx" RadioGroupSx])
       (map (fun option =>
               VElem "FormControlLabel"
                 (jsx [Attr "key" (VStr (option_value option));
                       Attr "value" (VStr (option_value option));
                       Attr "control"
                         (VElem "Radio"
                            (jsx [Spread (spread RadioProps);
                                  Attr "sx" RadioSx])
                            []);
                       Attr "label" (VStr (option_label option));
                       Spread (spread FormControlLabelProps);
                       Attr "sx" FormControlLabelSx])
                 [])
          options);
     js_and (VBool showError)
       (VElem "FormHelperText"
          (jsx [Spread (spread FormHelperTextProps);
                Attr "sx" FormHelperTextSx])
          [error_of meta])].

End Inputs.
Export Inputs.

(** ** The modal *)

Module ModalComponent.

(** What the modal reads from its surroundings: whether [window] exists
    (it does in a browser, it does not while rendering on the server), and
    the class-name tables of the CSS modules it imports. *)
Record Env : Type := mkEnv {
  window_defined : bool;
  modal_styles : jsobj;
  header_styles : jsobj;
  body_styles : jsobj;
  footer_styles : jsobj }.

(** [ModalProps]; callbacks of the caller are known by reference. *)
Record ModalProps : Type := mkProps {
  isOpen : bool;
  backdropClassName : option string;
  modalClassName : option string;
  bodyClassName : option string;
  headerClassName : option string;
  footerClassName : option string;
  onOpen : option nat;
  onClose : option nat;
  headerComponent : option (string -> fn -> jsval);
  bodyComponent : option (jsval -> fn -> jsval);
  footerComponent : option (fn -> fn -> jsval);
  isConfirmationModal : option bool;
  onConfirm : option nat;
  onCancel : option nat;
  confirmLabel : option string;
  cancelLabel : option string;
  title : option string;
  children : option jsval;
  onRequestClose : option nat;
  requestCloseOnEscClick : option bool;
  requestCloseOnBackdropClick : option bool }.

(** A callback parameter with the default [() => null]. *)
Definition or_arrow_null (site : string) (r : nat) (f : option nat) : fn :=
  from_option FExt (FArrowNull site r) f.

(** [className ?? styles.k]. *)
Definition class_or (className : option string) (styles : jsobj)
    (k : string) : jsval :=
  js_nullish (of_str className) (get styles k).

(** header/Header.tsx *)
Definition Header (env : Env) (title : string) (requestClose : fn)
    (className : option string) : jsval :=
  let styles := header_styles env in
  VElem "div" (jsx [Attr "className" (class_or className styles "header")])
    [VElem "h3" (jsx [Attr "className" (get styles "title")]) [VStr title];
     VElem "button"
       (jsx [Attr "type" (VStr "button");
             Attr "className" (get styles "closeButton");
             Attr "onClick" (VFun requestClose)])
       [VStr "✖"]].

(** body/Body.tsx *)
Definition Body (env : Env) (children : jsval) (className : option string)
    : jsval :=
  let styles := body_styles env in
  VElem "div" (jsx [Attr "className" (class_or className styles "body")])
    [children].

(** footer/Footer.tsx; the four props have their defaults again here, the
    modal always passes all of them. *)
Definition Footer (env : Env) (onConfirm onCancel : fn)
    (confirmLabel cancelLabel : string) (className : option string) : jsval :=
  let styles := footer_styles env in
  VElem "div" (jsx [Attr "className" (class_or className styles "footer")])
    [VElem "button"
       (jsx [Attr "type" (VStr "button");
             Attr "className" (get styles "confirmButton");
             Attr "onClick" (VFun onConfirm)])
       [VStr confirmLabel];
     VElem "button"
       (jsx [Attr "type" (VStr "button");
             Attr "className" (get styles "cancelButton");
             Attr "onClick" (VFun onCancel)])
       [VStr cancelLabel]].

(** A template literal with one hole around a class name. *)
Definition template (v : jsval) : jsval :=
  match v with
  | VStr s => VStr s
  | VUndef => VStr "undefined"
  | VNull => VStr "null"
  | VBool true => VStr "true"
  | VBool false => VStr "false"
  | VNum n => VStr (pretty n)
  | _ => VStr "[object Object]"
  end.

(** The props after the defaults of the parameter list are applied. *)
Definition onRequestClose_of (r : nat) (p : ModalProps) : fn :=
  or_arrow_null "onRequestClose" r (onRequestClose p).
Definition escClick_of (p : ModalProps) : bool :=
  default true (requestCloseOnEscClick p).
Definition backdropClick_of (p : ModalProps) : bool :=
  default true (requestCloseOnBackdropClick p).

(** The node that render number [r] of [Modal] returns (the [ref] of the
    inner [div] is left out: nothing reads [modalRef]). *)
Definition Modal (env : Env) (r : nat) (p : ModalProps) : jsval :=
  let styles := modal_styles env in
  let isConfirmationModal := default false (isConfirmationModal p) in
  let onConfirm := or_arrow_null "onConfirm" r (onConfirm p) in
  let onCancel := or_arrow_null "onCancel" r (onCancel p) in
  let confirmLabel := default "Confirm" (confirmLabel p) in
  let cancelLabel := default "Cancel" (cancelLabel p) in
  let title := default "" (title p) in
  let children := default VNull (children p) in
  let onRequestClose := onRequestClose_of r p in
  let requestCloseOnBackdropClick := backdropClick_of p in
  let header :=
    match headerComponent p with
    | Some headerComponent => headerComponent title onRequestClose
    | None => Header env title onRequestClose (headerClassName p)
    end in
  let body :=
    match bodyComponent p with
    | Some bodyComponent => bodyComponent children onRequestClose
    | None => Body env children (bodyClassName p)
    end in
  let footer :=
    match footerComponent p with
    | Some footerComponent => footerComponent onConfirm onCancel
    | None =>
        if isConfirmationModal
        then Footer env onConfirm onCancel confirmLabel cancelLabel
               (footerClassName p)
        else VNull
    end in
  if negb (isOpen p) then VBool false
  else if negb (window_defined env) then VBool false
  else
    VPortal
      (VElem "div" (jsx [Attr "className" (get styles "modalComponent")])
         [VElem "div"
            (jsx [Attr "className"
                    (template (class_or (backdropClassName p) styles
                                 "backdrop"));
                  Attr "aria-hidden" (VStr "true");
                  Attr "onClick"
                    (VFun (FBackdropOnClick r requestCloseOnBackdropClick
                             onRequestClose))])
            [];
          VElem "div"
            (jsx [Attr "className"
                    (template (class_or (modalClassName p) styles "modal"))])
            [header; body; footer]])
      "document.body".

(** *** Effects *)

(** The listeners registered on [document], oldest first. *)
Record Document : Type := mkDoc {
  listeners : list (string * fn) }.

Definition same_listener (type : string) (l : fn) (e : string * fn) : bool :=
  String.eqb (fst e) type && same_fn (snd e) l.

(** [document.addEventListener(type, l)]: a listener that is already
    registered for the type is not registered twice. *)
Definition addEventListener (type : string) (l : fn) (doc : Document)
    : Document :=
  if existsb (same_listener type l) (listeners doc) then doc
  else {| listeners := listeners doc ++ [(type, l)] |}.

(** [document.removeEventListener(type, l)]. *)
Definition removeEventListener (type : string) (l : fn) (doc : Document)
    : Document :=
  {| listeners :=
       List.filter (fun e => negb (same_listener type l e)) (listeners doc) |}.

(** An event of the given type reaches [document]: every listener of the
    type is called with the event object. *)
Definition dispatchEvent (type : string) (e : jsval) (doc : Document)
    : list event :=
  flat_map (fun l => if String.eqb (fst l) type then call (snd l) [e] else [])
    (listeners doc).

Definition keydown (key : string) : jsval :=
  VObj (jsx [Attr "key" (VStr key)]).

(** First effect, dependencies [[isOpen, onOpen, onClose]]. *)
Definition lifecycle_effect (p : ModalProps) : list event :=
  (if negb (isOpen p)
   then match onClose p with Some onClose => call (FExt onClose) [] | None => [] end
   else [])
  ++
  (if isOpen p
   then match onOpen p with Some onOpen => call (FExt onOpen) [] | None => [] end
   else []).

Definition lifecycle_deps (p : ModalProps) : bool * option nat * option nat :=
  (isOpen p, onOpen p, onClose p).

(** Second effect, dependencies
    [[isOpen, requestCloseOnEscClick, onRequestClose]]: the new document,
    and the listener that the returned cleanup removes ([None] when the
    effect returns early and has no cleanup). *)
Definition closeListener (r : nat) (p : ModalProps) : fn :=
  FCloseListener r (isOpen p) (escClick_of p) (onRequestClose_of r p).

Definition listener_effect (env : Env) (r : nat) (p : ModalProps)
    (doc : Document) : Document * option fn :=
  if negb (window_defined env) then (doc, None)
  else
    let closeListener := closeListener r p in
    (addEventListener "keydown" closeListener doc, Some closeListener).

Definition listener_deps (r : nat) (p : ModalProps) : bool * bool * fn :=
  (isOpen p, escClick_of p, onRequestClose_of r p).

Definition run_cleanup (cleanup : option fn) (doc : Document) : Document :=
  match cleanup with
  | Some l => removeEventListener "keydown" l doc
  | None => doc
  end.

(** [Object.is] on each pair of dependencies. *)
Definition same_lifecycle_deps (a b : bool * option nat * option nat) : bool :=
  bool_decide (a = b).

Definition same_listener_deps (a b : bool * bool * fn) : bool :=
  bool_decide (a.1.1 = b.1.1) && bool_decide (a.1.2 = b.1.2)
  && same_fn a.2 b.2.

(** What React keeps for one mounted modal between renders. *)
Record Instance : Type := mkInstance {
  renders : nat;
  last_lifecycle_deps : bool * option nat * option nat;
  last_listener_deps : bool * bool * fn;
  listener_cleanup : option fn }.

(** The result of one render and commit. *)
Record Commit : Type := mkCommit {
  instance : Instance;
  document : Document;
  trace : list event;
  output : jsval }.

(** First render: both effects run. *)
Definition mount (env : Env) (p : ModalProps) (doc : Document) : Commit :=
  let r := 0%nat in
  let out := Modal env r p in
  let log := lifecycle_effect p in
  let '(doc', cleanup) := listener_effect env r p doc in
  {| instance :=
       {| renders := 1%nat;
          last_lifecycle_deps := lifecycle_deps p;
          last_listener_deps := listener_deps r p;
          listener_cleanup := cleanup |};
     document := doc';
     trace := log;
     output := out |}.

(** A later render with new props: an effect runs again when one of its
    dependencies has changed, after the cleanup of its last run. *)
Definition update (env : Env) (p : ModalProps) (inst : Instance)
    (doc : Document) : Commit :=
  let r := renders inst in
  let out := Modal env r p in
  let log :=
    if same_lifecycle_deps (last_lifecycle_deps inst) (lifecycle_deps p)
    then []
    else lifecycle_effect p in
  let '(doc', cleanup) :=
    if same_listener_deps (last_listener_deps inst) (listener_deps r p)
    then (doc, listener_cleanup inst)
    else listener_effect env r p (run_cleanup (listener_cleanup inst) doc) in
  {| instance :=
       {| renders := S r;
          last_lifecycle_deps := lifecycle_deps p;
          last_listener_deps := listener_deps r p;
          listener_cleanup := cleanup |};
     document := doc';
     trace := log;
     output := out |}.

(** Unmounting runs the pending cleanup. *)
Definition unmount (inst : Instance) (doc : Document) : Document :=
  run_cleanup (listener_cleanup inst) doc.

(** A mounted modal that is rendered again with each props of [ps]. *)
Definition updates (env : Env) (ps : list ModalProps) (c : Commit) : Commit :=
  foldl (fun c p => update env p (instance c) (document c)) c ps.

Definition empty_document : Document := {| listeners := [] |}.

(** The life of a modal in a fresh document: mounted with [p0], then
    rendered with each of [ps]. *)
Definition life (env : Env) (p0 : ModalProps) (ps : list ModalProps)
    : Commit :=
  updates env ps (mount env p0 empty_document).

(** The props of the last render of a life. *)
Definition current (p0 : ModalProps) (ps : list ModalProps) : ModalProps :=
  List.last ps p0.

(** The state of a mounted modal in a browser, seen from the props [q] of
    its last render: the document holds one listener, made by an earlier
    or the last render from props with the dependencies of [q], and the
    pending cleanup removes that listener. *)
Definition listening (q : ModalProps) (c : Commit) : Prop :=
  exists r' rl : nat,
    (r' <= rl < renders (instance c))%nat
    /\ last_listener_deps (instance c) = listener_deps rl q
    /\ listeners (document c) = [("keydown", closeListener r' q)]
    /\ listener_cleanup (instance c) = Some (closeListener r' q).

End ModalComponent.

(** ** Components that take a list of items *)

Module Lists.

(** What one render does: the events it causes, and the node it returns
    unless it throws. *)
Definition rendering : Type := list event * outcome jsval.

(** [BreadcrumbItem]. *)
Record BreadcrumbItem : Type := mkBreadcrumbItem {
  crumb_label : jsval;
  crumb_href : option string;
  crumb_linkProps : jsval }.

(** The text of the warning; the quotation marks around [items] are
    spelled by their character code. *)
Definition breadcrumb_warning : string :=
  let q := String (Ascii.ascii_of_nat 34) EmptyString in
  "CustomBreadcrumb: " ++ q ++ "items" ++ q
  ++ " prop is empty. Breadcrumb will not render.".

(** CustomBreadcrumb; [isMounted] is its [useState(false)] cell, which the
    mount effect sets to [true].  [items] is [None] when the caller passes
    no array. *)
Definition CustomBreadcrumb (isMounted : bool)
    (items : option (list BreadcrumbItem)) (separator : option jsval)
    (containerStyle linkStyle : jsval)
    (maxItems itemsBeforeCollapse itemsAfterCollapse : option Z)
    (expandText : option string) (rest : jsobj) : rendering :=
  let props :=
    rest_without ["items"; "separator"; "containerStyle"; "linkStyle";
                  "maxItems"; "itemsBeforeCollapse"; "itemsAfterCollapse";
                  "expandText"] rest in
  let separator := default (VStr "/") separator in
  let maxItems := default 8 maxItems in
  let itemsBeforeCollapse := default 1 itemsBeforeCollapse in
  let itemsAfterCollapse := default 1 itemsAfterCollapse in
  let expandText := default "Show path" expandText in
  match items with
  | None | Some [] => ([ConsoleWarn breadcrumb_warning], Returned VNull)
  | Some items =>
      if negb isMounted then ([], Returned VNull)
      else
        ([],
         Returned
           (VElem "Breadcrumbs"
              (jsx [Attr "separator" separator;
                    Attr "style" containerStyle;
                    Attr "maxItems" (VNum maxItems);
                    Attr "itemsBeforeCollapse" (VNum itemsBeforeCollapse);
                    Attr "itemsAfterCollapse" (VNum itemsAfterCollapse);
                    Attr "expandText" (VStr expandText);
                    Attr "aria-label" (VStr "breadcrumb");
                    Spread props])
              (imap
                 (fun index item =>
                    let isLastItem :=
                      Z.eqb (Z.of_nat index) (Z.of_nat (length items) - 1) in
                    let key := VStr ("breadcrumb-item-" ++ pretty index) in
                    if truthy (of_str (crumb_href item)) && negb isLastItem
                    then
                      VElem "Link"
                        (jsx [Attr "key" key;
                              Attr "href" (of_str (crumb_href item));
                              Attr "passHref" (VBool true);
                              Spread (spread (crumb_linkProps item))])
                        [VElem "MuiLink"
                           (jsx [Attr "component" (VStr "span");
                                 Attr "underline" (VStr "hover");
                                 Attr "color" (VStr "inherit");
                                 Attr "style" linkStyle])
                           [crumb_label item]]
                    else
                      VElem "MuiTypography"
                        (jsx [Attr "key" key;
                              Attr "color" (VStr "text.primary");
                              Attr "component" (VStr "div");
                              Attr "style"
                                (VObj (jsx [Attr "display" (VStr "inline");
                                            Spread (spread linkStyle)]))])
                        [crumb_label item])
                 items)))
  end.

(** The mount effect of CustomBreadcrumb: [setIsMounted(true)]. *)
Definition CustomBreadcrumb_effect : list event :=
  [SetState "isMounted" (VBool true)].

(** A tab value, [string | number] (numbers are taken to be integers). *)
Inductive tabval : Type :=
| TStr (s : string)
| TNum (n : Z).

Global Instance tabval_eq_dec : EqDecision tabval.
Proof. solve_decision. Defined.

Definition val_of (v : tabval) : jsval :=
  match v with TStr s => VStr s | TNum n => VNum n end.

(** [CustomTabItem]. *)
Record CustomTabItem : Type := mkTabItem {
  tab_label : jsval;
  tab_content : jsval;
  tab_value : tabval }.

(** The initial state [items[0]?.value || 0]; reading [items[0]] throws
    when there is no array. *)
Definition initial_activeTab (items : option (list CustomTabItem))
    : outcome tabval :=
  match items with
  | None => Threw "TypeError: cannot read properties of undefined"
  | Some items =>
      Returned
        (match items !! 0%nat with
         | Some item =>
             if truthy (val_of (tab_value item)) then tab_value item
             else TNum 0
         | None => TNum 0
         end)
  end.

(** [item.value === activeTab]. *)
Definition strict_eq (a b : tabval) : bool := bool_decide (a = b).

(** CustomTabs with its state cell holding [activeTab]. *)
Definition CustomTabs (r : nat) (activeTab : tabval)
    (items : option (list CustomTabItem)) (containerStyle : jsval)
    (tabProps boxProps : jsval) (direction : option string) (rest : jsobj)
    : rendering :=
  let props :=
    rest_without ["items"; "containerStyle"; "tabProps"; "boxProps";
                  "direction"] rest in
  let direction := default "horizontal" direction in
  let handleChange := FHandleChange r in
  let isVertical := String.eqb direction "vertical" in
  match items with
  | None => ([], Threw "TypeError: cannot read properties of undefined")
  | Some items =>
      ([],
       Returned
         (VElem "Stack"
            (jsx [Attr "direction"
                    (VStr (if isVertical then "row" else "column"));
                  Attr "spacing" (VNum 2);
                  Attr "style" containerStyle])
            [VElem "Tabs"
               (jsx [Attr "value" (val_of activeTab);
                     Attr "onChange" (VFun handleChange);
                     Attr "orientation"
                       (VStr (if isVertical then "vertical"
                              else "horizontal"));
                     Spread props])
               (map (fun item =>
                       VElem "Tab"
                         (jsx [Attr "key" (val_of (tab_value item));
                               Attr "label" (tab_label item);
                               Attr "value" (val_of (tab_value item));
                               Spread (spread tabProps)])
                         [])
                  items);
             VElem "Box"
               (jsx [Spread (spread boxProps);
                     Attr "sx"
                       (VObj (jsx [Attr "flex" (VNum 1);
                                   Spread
                                     (spread (get_opt boxProps "sx"))]))])
               (map (fun item =>
                       if strict_eq (tab_value item) activeTab
                       then
                         VElem "div"
                           (jsx [Attr "key" (val_of (tab_value item))])
                           [tab_content item]
                       else VBool false)
                  items)]))
  end.

(** First render of CustomTabs: evaluate the initial state, then render. *)
Definition CustomTabs_mount (items : option (list CustomTabItem))
    (containerStyle tabProps boxProps : jsval) (direction : option string)
    (rest : jsobj) : rendering :=
  match initial_activeTab items with
  | Threw e => ([], Threw e)
  | Returned activeTab =>
      CustomTabs 0 activeTab items containerStyle tabProps boxProps direction
        rest
  end.

(** [CustomAccordionItem]. *)
Record CustomAccordionItem : Type := mkAccordionItem {
  acc_title : jsval;
  acc_content : jsval;
  acc_defaultExpanded : option bool }.

(** CustomAccordion. *)
Definition CustomAccordion (items : option (list CustomAccordionItem))
    (containerStyle accordionSummary accordionDetails : jsval)
    (rest : jsobj) : rendering :=
  let props :=
    rest_without ["items"; "containerStyle"; "accordionSummary";
                  "accordionDetails"] rest in
  match items with
  | None => ([], Threw "TypeError: cannot read properties of undefined")
  | Some items =>
      ([],
       Returned
         (VElem "div" (jsx [Attr "style" containerStyle])
            (imap
               (fun index item =>
                  VElem "Accordion"
                    (jsx [Attr "key" (VNum (Z.of_nat index));
                          Attr "defaultExpanded"
                            (of_bool (acc_defaultExpanded item));
                          Spread props])
                    [VElem "AccordionSummary"
                       (jsx [Attr "expandIcon"
                               (VElem "ExpandMoreIcon" ∅ []);
                             Spread (spread accordionSummary)])
                       [VElem "div" ∅ [acc_title item]];
                     VElem "AccordionDetails"
                       (jsx [Spread (spread accordionDetails)])
                       [VElem "div" ∅ [acc_content item]]])
               items)))
  end.

End Lists.

(** ** Pagination *)

Module Pagination.

(** The [renderItem] arrow applied to an item. *)
Definition renderItem (itemProps : jsval) (item : jsval) : jsval :=
  VElem "PaginationItem" (jsx [Spread (spread item); Spread (spread itemProps)])
    [].

(** CustomPagination:
    [({ count, page, onChange, itemProps, stackProps, ...props })].  The
    component calls no hook: the node is a function of the props alone. *)
Definition CustomPagination (r : nat) (count page : Z) (onChange : nat)
    (itemProps stackProps : jsval) (rest : jsobj) : jsval :=
  let props :=
    rest_without ["count"; "page"; "onChange"; "itemProps"; "stackProps"]
      rest in
  VElem "Stack"
    (jsx [Attr "spacing" (VNum 2);
          Attr "direction" (VStr "row");
          Attr "justifyContent" (VStr "center");
          Spread (spread stackProps)])
    [VElem "Pagination"
       (jsx [Attr "count" (VNum count);
             Attr "page" (VNum page);
             Attr "onChange" (VFun (FExt onChange));
             Attr "renderItem" (VFun (FRenderItem r itemProps));
             Spread props])
       []].

End Pagination.

(** ** Reading a rendered tree *)

Module Tree.

Definition props_of (v : jsval) : jsobj :=
  match v with VElem _ props _ => props | _ => ∅ end.

Definition children_of (v : jsval) : list jsval :=
  match v with VElem _ _ children => children | _ => [] end.

Definition type_of (v : jsval) : option string :=
  match v with VElem type _ _ => Some type | _ => None end.

(** The prop [k] of an element, and its [i]-th child. *)
Definition prop (v : jsval) (k : string) : jsval := get (props_of v) k.
Definition child (i : nat) (v : jsval) : jsval :=
  default VUndef (children_of v !! i).

(** React renders nothing for [false], [true], [null] and [undefined]. *)
Definition renders_nothing (v : jsval) : bool :=
  match v with
  | VBool _ | VNull | VUndef => true
  | _ => false
  end.

(** The children of an element for which React renders something. *)
Definition rendered_children (v : jsval) : list jsval :=
  List.filter (fun c => negb (renders_nothing c)) (children_of v).

(** What a portal mounts, and where. *)
Definition mounted (v : jsval) : option (jsval * string) :=
  match v with VPortal content container => Some (content, container) | _ => None end.

(** A click on an element that has an [onClick] prop. *)
Definition click (el : jsval) : outcome (list event) :=
  call_val (prop el "onClick") [VObj (jsx [Attr "type" (VStr "click")])].

(** The value that reaches a control for key [k] when the control is given
    [{...field} {...props}]: the caller's own prop if there is one, the
    field's otherwise. *)
Definition passed (field : FieldInputProps) (props : jsobj) (k : string)
    : jsval :=
  match props !! k with
  | Some v => v
  | None => get (field_obj field) k
  end.

(** The field that the [else] branch makes up; [checked] is [Some false]
    in the checkbox and the switch and missing in the other inputs. *)
Definition made_up (r : nat) (name : option string) (checked : option bool)
    : FieldInputProps :=
  mkField (default "" (truthy_name name)) (VStr "")
    (FArrowEmpty "field.onChange" r) (FArrowEmpty "field.onBlur" r)
    checked None.

(** The control inside each input's output. *)
Definition textfield_control (out : jsval) : jsval := out.
Definition checkbox_control (out : jsval) : jsval := prop (child 0 out) "control".
Definition switch_control (out : jsval) : jsval := prop (child 0 out) "control".
Definition textarea_control (out : jsval) : jsval := child 0 out.
Definition radio_control (out : jsval) : jsval := child 1 out.

(** The modal's backdrop: the first child of what the portal mounts. *)
Definition backdrop (out : jsval) : jsval :=
  match mounted out with
  | Some (content, _) => child 0 content
  | None => VUndef
  end.

End Tree.
Export Tree.

(** ** Sample surroundings, used to run the components *)

Module Samples.

(** A form whose every field holds [a@b], is touched and has the error
    [required]; as a checkbox the field is checked. *)
Definition touched_form : FormikContextType :=
  {| getFieldProps := fun arg =>
       match arg with
       | ByName name => mkField name (VStr "a@b") (FExt 1) (FExt 2) None None
       | ByOptions name _ =>
           mkField name (VStr "on") (FExt 1) (FExt 2) (Some true) None
       end;
     getFieldMeta := fun _ =>
       mkMeta (VStr "a@b") (Some "required") true None false (VStr "");
     setFieldValue := 3%nat |}.

(** The same form before the field is visited: the error is there, the
    field is not touched. *)
Definition untouched_form : FormikContextType :=
  {| getFieldProps := getFieldProps touched_form;
     getFieldMeta := fun _ =>
       mkMeta (VStr "a@b") (Some "required") false None false (VStr "");
     setFieldValue := 3%nat |}.

(** A browser, with class names in the modal's CSS module. *)
Definition browser : ModalComponent.Env :=
  {| ModalComponent.window_defined := true;
     ModalComponent.modal_styles :=
       jsx [Attr "modalComponent" (VStr "modalComponent");
            Attr "backdrop" (VStr "backdrop");
            Attr "modal" (VStr "modal")];
     ModalComponent.header_styles := ∅;
     ModalComponent.body_styles := ∅;
     ModalComponent.footer_styles := ∅ |}.

(** [<Modal isOpen={isOpen} onOpen={f1} onClose={f2} onRequestClose={f3} />]
    with the functions [1], [2] and [3] of the caller. *)
Definition modal_props (isOpen : bool) : ModalComponent.ModalProps :=
  {| ModalComponent.isOpen := isOpen;
     ModalComponent.backdropClassName := None;
     ModalComponent.modalClassName := None;
     ModalComponent.bodyClassName := None;
     ModalComponent.headerClassName := None;
     ModalComponent.footerClassName := None;
     ModalComponent.onOpen := Some 1%nat;
     ModalComponent.onClose := Some 2%nat;
     ModalComponent.headerComponent := None;
     ModalComponent.bodyComponent := None;
     ModalComponent.footerComponent := None;
     ModalComponent.isConfirmationModal := None;
     ModalComponent.onConfirm := None;
     ModalComponent.onCancel := None;
     ModalComponent.confirmLabel := None;
     ModalComponent.cancelLabel := None;
     ModalComponent.title := None;
     ModalComponent.children := None;
     ModalComponent.onRequestClose := Some 3%nat;
     ModalComponent.requestCloseOnEscClick := None;
     ModalComponent.requestCloseOnBackdropClick := None |}.

End Samples.
Export Samples.

(** ** Buttons and the theme provider *)

Module Buttons.

(** CustomLoadingButton:
    [({ variant = 'contained', color = 'primary', ...props })]. *)
Definition CustomLoadingButton (variant color : option string)
    (rest : jsobj) : jsval :=
  let props := rest_without ["variant"; "color"] rest in
  let variant := default "contained" variant in
  let color := default "primary" color in
  VElem "LoadingButton"
    (jsx [Attr "variant" (VStr variant);
          Attr "color" (VStr color);
          Spread props])
    [].

(** CustomButton:
    [({ variant = 'text', color = 'primary', size = 'medium',
        loading = false, loadingIndicator, disabled = false, startIcon,
        endIcon, fullWidth = false, children, ...props })]. *)
Definition CustomButton (variant color size : option string)
    (loading : option bool) (loadingIndicator : jsval)
    (disabled : option bool) (startIcon endIcon : jsval)
    (fullWidth : option bool) (children : jsval) (rest : jsobj) : jsval :=
  let props :=
    rest_without ["variant"; "color"; "size"; "loading"; "loadingIndicator";
                  "disabled"; "startIcon"; "endIcon"; "fullWidth";
                  "children"] rest in
  let variant := default "text" variant in
  let color := default "primary" color in
  let size := default "medium" size in
  let loading := default false loading in
  let disabled := default false disabled in
  let fullWidth := default false fullWidth in
  VElem "Button"
    (jsx [Attr "variant" (VStr variant);
          Attr "color" (VStr color);
          Attr "size" (VStr size);
          Attr "disabled" (js_or (VBool disabled) (VBool loading));
          Attr "startIcon" startIcon;
          Attr "endIcon" endIcon;
          Attr "fullWidth" (VBool fullWidth);
          Spread props])
    [if loading then js_or loadingIndicator (VStr "Loading...")
     else children].

End Buttons.

Module Theme.

(** The object that CustomThemeProvider hands to [createTheme]:
    [{ palette: { mode: darkMode ? 'dark' : 'light',
                  ...themeOptions.palette },
       ...themeOptions }]. *)
Definition theme_argument (themeOptions : option jsobj)
    (darkMode : option bool) : jsobj :=
  let themeOptions := default ∅ themeOptions in
  let darkMode := default false darkMode in
  jsx [Attr "palette"
         (VObj (jsx [Attr "mode" (VStr (if darkMode then "dark" else "light"));
                     Spread (spread (get themeOptions "palette"))]));
       Spread themeOptions].

(** CustomThemeProvider: [({ children, themeOptions = {}, darkMode = false })];
    [createTheme] is the library's, taken as a parameter. *)
Definition CustomThemeProvider (createTheme : jsobj -> jsval)
    (children : jsval) (themeOptions : option jsobj)
    (darkMode : option bool) : jsval :=
  let theme := createTheme (theme_argument themeOptions darkMode) in
  VElem "ThemeProvider" (jsx [Attr "theme" theme])
    [VElem "CssBaseline" ∅ []; children].

End Theme.

(** ** Reading more of a rendered tree, and running state changes *)

Module Parts.

(** The inner [div] of a mounted modal, whose children are the header, the
    body and the footer. *)
Definition modal_box (out : jsval) : jsval :=
  match mounted out with
  | Some (content, _) => child 1 content
  | None => VUndef
  end.

Definition header_of (out : jsval) : jsval := child 0 (modal_box out).
Definition body_of (out : jsval) : jsval := child 1 (modal_box out).
Definition footer_of (out : jsval) : jsval := child 2 (modal_box out).

(** A change event whose [target.value] is [v]. *)
Definition change_event (v : jsval) : jsval :=
  VObj (jsx [Attr "target" (VObj (jsx [Attr "value" v]))]).

(** The tab value a JavaScript value stands for, if it is one. *)
Definition tabval_of (v : jsval) : option Lists.tabval :=
  match v with
  | VStr s => Some (Lists.TStr s)
  | VNum n => Some (Lists.TNum n)
  | _ => None
  end.

(** The [activeTab] cell of CustomTabs after the state changes among the
    events are applied, in order; a value that is no tab value (none is
    allowed by the type of [setActiveTab]) is passed over. *)
Definition activeTab_after (events : list event) (activeTab : Lists.tabval)
    : Lists.tabval :=
  foldl
    (fun s e =>
       match e with
       | SetState slot v =>
           if String.eqb slot "activeTab" then default s (tabval_of v) else s
       | _ => s
       end)
    activeTab events.

(** The element that stands for a breadcrumb item is a link. *)
Definition is_link (crumb : jsval) : bool :=
  match type_of crumb with
  | Some type => String.eqb type "Link"
  | None => false
  end.

(** Modal props for the examples: everything not listed is left out. *)
Definition modal_with (isOpen : bool) (onOpen onClose onRequestClose : option nat)
    (isConfirmationModal : option bool) (onConfirm onCancel : option nat)
    : ModalComponent.ModalProps :=
  {| ModalComponent.isOpen := isOpen;
     ModalComponent.backdropClassName := None;
     ModalComponent.modalClassName := None;
     ModalComponent.bodyClassName := None;
     ModalComponent.headerClassName := None;
     ModalComponent.footerClassName := None;
     ModalComponent.onOpen := onOpen;
     ModalComponent.onClose := onClose;
     ModalComponent.headerComponent := None;
     ModalComponent.bodyComponent := None;
     ModalComponent.footerComponent := None;
     ModalComponent.isConfirmationModal := isConfirmationModal;
     ModalComponent.onConfirm := onConfirm;
     ModalComponent.onCancel := onCancel;
     ModalComponent.confirmLabel := None;
     ModalComponent.cancelLabel := None;
     ModalComponent.title := None;
     ModalComponent.children := None;
     ModalComponent.onRequestClose := onRequestClose;
     ModalComponent.requestCloseOnEscClick := None;
     ModalComponent.requestCloseOnBackdropClick := None |}.

(** [<Modal isOpen={isOpen} onRequestClose={f} requestCloseOnEscClick={..}
    requestCloseOnBackdropClick={..} />]. *)
Definition modal_flagged (isOpen : bool) (onRequestClose : option nat)
    (requestCloseOnEscClick requestCloseOnBackdropClick : option bool)
    : ModalComponent.ModalProps :=
  {| ModalComponent.isOpen := isOpen;
     ModalComponent.backdropClassName := None;
     ModalComponent.modalClassName := None;
     ModalComponent.bodyClassName := None;
     ModalComponent.headerClassName := None;
     ModalComponent.footerClassName := None;
     ModalComponent.onOpen := None;
     ModalComponent.onClose := None;
     ModalComponent.headerComponent := None;
     ModalComponent.bodyComponent := None;
     ModalComponent.footerComponent := None;
     ModalComponent.isConfirmationModal := None;
     ModalComponent.onConfirm := None;
     ModalComponent.onCancel := None;
     ModalComponent.confirmLabel := None;
     ModalComponent.cancelLabel := None;
     ModalComponent.title := Some "Settings";
     ModalComponent.children := Some (VStr "Modal content goes here.");
     ModalComponent.onRequestClose := onRequestClose;
     ModalComponent.requestCloseOnEscClick := requestCloseOnEscClick;
     ModalComponent.requestCloseOnBackdropClick :=
       requestCloseOnBackdropClick |}.

(** Rendering on the server: no [window]. *)
Definition server : ModalComponent.Env :=
  {| ModalComponent.window_defined := false;
     ModalComponent.modal_styles := ∅;
     ModalComponent.header_styles := ∅;
     ModalComponent.body_styles := ∅;
     ModalComponent.footer_styles := ∅ |}.

End Parts.
Export Parts.

(** * Properties *)

(** ** Attribute lists and objects *)

Section JsxFacts.

Implicit Types (o acc : jsobj) (k : string) (v : jsval).

Lemma get_insert_eq o k v : get (<[k := v]> o) k = v.
Proof. unfold get. by rewrite lookup_insert_eq. Qed.

Lemma get_insert_ne o k k' v : k ≠ k' -> get (<[k := v]> o) k' = get o k'.
Proof. intros Hne. unfold get. by rewrite lookup_insert_ne. Qed.

Lemma get_union_l o1 o2 k v : o1 !! k = Some v -> get (o1 ∪ o2) k = v.
Proof.
  intros H. unfold get. by rewrite (lookup_union_Some_l o1 o2 k v H).
Qed.

Lemma get_union_r o1 o2 k : o1 !! k = None -> get (o1 ∪ o2) k = get o2 k.
Proof. intros H. unfold get. by rewrite lookup_union_r. Qed.

Lemma get_union_default o1 o2 k :
  get (o1 ∪ o2) k = default (get o2 k) (o1 !! k).
Proof.
  destruct (o1 !! k) as [v|] eqn:Hk; simpl.
  - by apply get_union_l.
  - by apply get_union_r.
Qed.

Lemma rest_without_lookup_in names (P : jsobj) k :
  k ∈ names -> rest_without names P !! k = None.
Proof.
  induction names as [|n names IH]; intros Hin; [by apply elem_of_nil in Hin|].
  simpl. destruct (decide (n = k)) as [->|Hne].
  - apply lookup_delete_eq.
  - rewrite lookup_delete_ne by done. apply IH.
    apply elem_of_cons in Hin as [->|]; [done|done].
Qed.

Lemma rest_without_lookup_notin names (P : jsobj) k :
  k ∉ names -> rest_without names P !! k = P !! k.
Proof.
  induction names as [|n names IH]; intros Hnin; [done|].
  simpl. apply not_elem_of_cons in Hnin as [Hne Hnin].
  rewrite lookup_delete_ne by done. by apply IH.
Qed.

(** A lookup of one of the four keys every field object has: the optional
    [checked] and [multiple] entries, spread last, do not hide it. *)
Ltac field_obj_lookup :=
  unfold field_obj, jsx; simpl;
  match goal with
  | |- context [field_checked ?f] =>
      destruct (field_checked f), (field_multiple f); simpl
  end;
  repeat (rewrite lookup_union_r;
          [|by (apply lookup_singleton_ne || apply lookup_empty)]);
  by simplify_map_eq.

Lemma field_obj_value (field : FieldInputProps) :
  field_obj field !! "value" = Some (field_value field).
Proof. field_obj_lookup. Qed.

Lemma field_obj_onChange (field : FieldInputProps) :
  field_obj field !! "onChange" = Some (VFun (field_onChange field)).
Proof. field_obj_lookup. Qed.

Lemma field_obj_onBlur (field : FieldInputProps) :
  field_obj field !! "onBlur" = Some (VFun (field_onBlur field)).
Proof. field_obj_lookup. Qed.

(** [{...field} {...props}] followed by attributes other than [k]. *)
Lemma get_field_then_props (field : FieldInputProps) (props : jsobj) k :
  get (props ∪ (field_obj field ∪ ∅)) k = passed field props k.
Proof.
  unfold passed, get. rewrite lookup_union.
  destruct (props !! k) as [v|] eqn:Hk; simpl.
  - by destruct ((field_obj field ∪ ∅) !! k).
  - rewrite (right_id_L ∅ (∪)). by destruct (field_obj field !! k).
Qed.

Lemma get_rest_without names (P : jsobj) k :
  k ∉ names -> get (rest_without names P) k = get P k.
Proof. intros Hk. unfold get. by rewrite rest_without_lookup_notin. Qed.

(** A prop that the parameter list does not bind is still in the rest. *)
Lemma passed_rest (field : FieldInputProps) names (rest : jsobj) k :
  k ∉ names -> passed field (rest_without names rest) k = passed field rest k.
Proof.
  intros Hk. unfold passed. by rewrite rest_without_lookup_notin.
Qed.

Lemma field_obj_get (field : FieldInputProps) :
  get (field_obj field) "value" = field_value field
  /\ get (field_obj field) "onChange" = VFun (field_onChange field)
  /\ get (field_obj field) "onBlur" = VFun (field_onBlur field).
Proof.
  unfold get.
  by rewrite field_obj_value, field_obj_onChange, field_obj_onBlur.
Qed.

End JsxFacts.

(** ** The form inputs *)

Module InputFacts.

Ltac jsx_get :=
  unfold prop, child, props_of, children_of, jsx; simpl;
  repeat first
    [ rewrite get_insert_eq
    | rewrite get_insert_ne by done ].

Section Binding.

Context (formik : option FormikContextType) (r : nat) (name : option string).

Lemma bind_text_bound fk n :
  formik = Some fk -> truthy_name name = Some n ->
  bind_text formik r name = (getFieldProps fk (ByName n), getFieldMeta fk n).
Proof. intros -> Hn. unfold bind_text. by rewrite Hn. Qed.

Lemma bind_checkbox_bound fk n :
  formik = Some fk -> truthy_name name = Some n ->
  bind_checkbox formik r name
  = (getFieldProps fk (ByOptions n "checkbox"), getFieldMeta fk n).
Proof. intros -> Hn. unfold bind_checkbox. by rewrite Hn. Qed.

Lemma bind_text_default :
  formik = None \/ truthy_name name = None ->
  bind_text formik r name
  = (mkField (default "" (truthy_name name)) (VStr "")
       (FArrowEmpty "field.onChange" r) (FArrowEmpty "field.onBlur" r)
       None None,
     default_meta).
Proof.
  unfold bind_text. intros [-> | Hn]; [done|].
  rewrite Hn. by destruct formik.
Qed.

Lemma bind_checkbox_default :
  formik = None \/ truthy_name name = None ->
  bind_checkbox formik r name
  = (mkField (default "" (truthy_name name)) (VStr "")
       (FArrowEmpty "field.onChange" r) (FArrowEmpty "field.onBlur" r)
       (Some false) None,
     default_meta).
Proof.
  unfold bind_checkbox. intros [-> | Hn]; [done|].
  rewrite Hn. by destruct formik.
Qed.

(** [field.checked || false]. *)
Lemma checked_or_false (field : FieldInputProps) :
  js_or (checked_of field) (VBool false)
  = VBool (default false (field_checked field)).
Proof. unfold js_or, checked_of. by destruct (field_checked field) as [[]|]. Qed.

(** Every prop of the text field other than the three written after the
    spreads comes from the caller if the caller has it, from the field
    otherwise. *)
Lemma TextField_passes rest k :
  k ∉ ["name"; "error"; "helperText"] ->
  prop (textfield_control (FormikTextField formik r name rest)) k
  = passed (bind_text formik r name).1 (rest_without ["name"] rest) k.
Proof.
  intros Hk. unfold textfield_control, FormikTextField.
  destruct (bind_text formik r name) as [field meta]. simpl.
  apply not_elem_of_cons in Hk as [H1 Hk].
  apply not_elem_of_cons in Hk as [H2 Hk].
  apply not_elem_of_cons in Hk as [H3 _].
  jsx_get. apply get_field_then_props.
Qed.

Lemma Checkbox_passes label labelSx checkboxSx helperTextSx rest k :
  k ∉ ["checked"; "sx"; "name"] ->
  prop (checkbox_control
          (FormikCheckbox formik r name label labelSx checkboxSx helperTextSx
             rest)) k
  = passed (bind_checkbox formik r name).1
      (rest_without
         ["name"; "label"; "labelSx"; "checkboxSx"; "helperTextSx"] rest) k.
Proof.
  intros Hk. unfold checkbox_control, FormikCheckbox.
  destruct (bind_checkbox formik r name) as [field meta]. simpl.
  apply not_elem_of_cons in Hk as [H1 Hk].
  apply not_elem_of_cons in Hk as [H2 Hk].
  apply not_elem_of_cons in Hk as [H3 _].
  jsx_get. apply get_field_then_props.
Qed.

Lemma Checkbox_checked label labelSx checkboxSx helperTextSx rest :
  prop (checkbox_control
          (FormikCheckbox formik r name label labelSx checkboxSx helperTextSx
             rest)) "checked"
  = VBool (default false (field_checked (bind_checkbox formik r name).1)).
Proof.
  unfold checkbox_control, FormikCheckbox.
  destruct (bind_checkbox formik r name) as [field meta]. simpl.
  jsx_get. apply checked_or_false.
Qed.

Lemma Switch_passes label labelPlacement FormControlProps
    FormControlLabelProps rest k :
  spread FormControlLabelProps !! "control" = None ->
  k ∉ ["checked"; "name"] ->
  prop (switch_control
          (FormikSwitch formik r name label labelPlacement FormControlProps
             FormControlLabelProps rest)) k
  = passed (bind_checkbox formik r name).1
      (rest_without
         ["name"; "label"; "labelPlacement"; "FormControlProps";
          "FormControlLabelProps"] rest) k.
Proof.
  intros Hc Hk. unfold switch_control, FormikSwitch.
  destruct (bind_checkbox formik r name) as [field meta]. simpl.
  apply not_elem_of_cons in Hk as [H1 Hk].
  apply not_elem_of_cons in Hk as [H2 _].
  jsx_get. rewrite (get_union_r _ _ _ Hc). jsx_get.
  apply get_field_then_props.
Qed.

Lemma Switch_checked label labelPlacement FormControlProps
    FormControlLabelProps rest :
  spread FormControlLabelProps !! "control" = None ->
  prop (switch_control
          (FormikSwitch formik r name label labelPlacement FormControlProps
             FormControlLabelProps rest)) "checked"
  = VBool (default false (field_checked (bind_checkbox formik r name).1)).
Proof.
  intros Hc. unfold switch_control, FormikSwitch.
  destruct (bind_checkbox formik r name) as [field meta]. simpl.
  jsx_get. rewrite (get_union_r _ _ _ Hc). jsx_get.
  apply checked_or_false.
Qed.

Lemma Textarea_passes sx errorStyles rest k :
  k ∉ ["name"; "style"; "aria-invalid"] ->
  prop (textarea_control
          (FormikCustomTextarea formik r sx name errorStyles rest)) k
  = passed (bind_text formik r name).1
      (rest_without ["sx"; "name"; "errorStyles"] rest) k.
Proof.
  intros Hk. unfold textarea_control, FormikCustomTextarea.
  destruct (bind_text formik r name) as [field meta]. simpl.
  apply not_elem_of_cons in Hk as [H1 Hk].
  apply not_elem_of_cons in Hk as [H2 Hk].
  apply not_elem_of_cons in Hk as [H3 _].
  jsx_get. apply get_field_then_props.
Qed.

End Binding.

(** C1, as amended.  Inside a form and with a non-empty [name], the field
    and the meta of every input are the ones [getFieldProps] and
    [getFieldMeta] return for that name (asked with [type: 'checkbox'] by
    the checkbox and the switch); otherwise they are made up: empty string
    value, handlers that do nothing, [checked: false] in the checkbox and
    the switch, meta untouched and without error.  Of these, [value],
    [onChange] and [onBlur] reach the control unless the caller passes a
    prop of the same name, which then wins; [checked] of the checkbox and
    of the switch is always the field's, [false] when it has none.  (For
    the switch this is the control the component builds, which
    [FormControlLabelProps] may replace.) *)
Theorem field_binding (formik : option FormikContextType) (r : nat)
    (name : option string) :
  (forall fk n, formik = Some fk -> truthy_name name = Some n ->
     bind_text formik r name
     = (getFieldProps fk (ByName n), getFieldMeta fk n)
     /\ bind_checkbox formik r name
        = (getFieldProps fk (ByOptions n "checkbox"), getFieldMeta fk n))
  /\ (formik = None \/ truthy_name name = None ->
      bind_text formik r name = (made_up r name None, default_meta)
      /\ bind_checkbox formik r name
         = (made_up r name (Some false), default_meta)
      /\ field_value (made_up r name None) = VStr ""
      /\ (forall checked args,
            call (field_onChange (made_up r name checked)) args = []
            /\ call (field_onBlur (made_up r name checked)) args = [])
      /\ meta_touched default_meta = false
      /\ meta_error default_meta = None)
  /\ (forall field props,
        passed field props "value"
        = default (field_value field) (props !! "value")
        /\ passed field props "onChange"
           = default (VFun (field_onChange field)) (props !! "onChange")
        /\ passed field props "onBlur"
           = default (VFun (field_onBlur field)) (props !! "onBlur"))
  /\ (forall rest k, k ∈ ["value"; "onChange"; "onBlur"] ->
        prop (textfield_control (FormikTextField formik r name rest)) k
        = passed (bind_text formik r name).1 rest k)
  /\ (forall sx errorStyles rest k, k ∈ ["value"; "onChange"; "onBlur"] ->
        prop (textarea_control
                (FormikCustomTextarea formik r sx name errorStyles rest)) k
        = passed (bind_text formik r name).1 rest k)
  /\ (forall label labelSx checkboxSx helperTextSx rest,
        let control :=
          checkbox_control
            (FormikCheckbox formik r name label labelSx checkboxSx
               helperTextSx rest) in
        (forall k, k ∈ ["value"; "onChange"; "onBlur"] ->
           prop control k = passed (bind_checkbox formik r name).1 rest k)
        /\ prop control "checked"
           = VBool
               (default false
                  (field_checked (bind_checkbox formik r name).1)))
  /\ (forall label labelPlacement FormControlProps FormControlLabelProps rest,
        spread FormControlLabelProps !! "control" = None ->
        let control :=
          switch_control
            (FormikSwitch formik r name label labelPlacement FormControlProps
               FormControlLabelProps rest) in
        (forall k, k ∈ ["value"; "onChange"; "onBlur"] ->
           prop control k = passed (bind_checkbox formik r name).1 rest k)
        /\ prop control "checked"
           = VBool
               (default false
                  (field_checked (bind_checkbox formik r name).1))).
Proof.
  assert (Hkeys : forall k (avoid : list string),
             k ∈ ["value"; "onChange"; "onBlur"] ->
             Forall (fun a => a ∉ ["value"; "onChange"; "onBlur"]) avoid ->
             k ∉ avoid).
  { intros k avoid Hk Hav Hin.
    rewrite Forall_forall in Hav. by apply (Hav k Hin). }
  assert (Hno : forall a : string,
             a ∉ ["value"; "onChange"; "onBlur"] <->
             a ≠ "value" /\ a ≠ "onChange" /\ a ≠ "onBlur").
  { intros a. rewrite !not_elem_of_cons. split; [tauto|].
    intros (?&?&?). repeat split; try done. apply not_elem_of_nil. }
  split; [intros fk n Hf Hn; split;
          [by apply bind_text_bound|by apply bind_checkbox_bound]|].
  split; [intros Hd; split; [by apply bind_text_default|];
          split; [by apply bind_checkbox_default|done]|].
  split.
  { intros field props. unfold passed.
    destruct (field_obj_get field) as (-> & -> & ->).
    by destruct (props !! "value"), (props !! "onChange"),
      (props !! "onBlur"). }
  split.
  { intros rest k Hk. rewrite TextField_passes.
    - apply passed_rest, Hkeys; [done|]. repeat constructor; by apply Hno.
    - apply Hkeys; [done|]. repeat constructor; by apply Hno. }
  split.
  { intros sx errorStyles rest k Hk. rewrite Textarea_passes.
    - apply passed_rest, Hkeys; [done|]. repeat constructor; by apply Hno.
    - apply Hkeys; [done|]. repeat constructor; by apply Hno. }
  split.
  { intros label labelSx checkboxSx helperTextSx rest control.
    subst control. split; [|apply Checkbox_checked].
    intros k Hk. rewrite Checkbox_passes.
    - apply passed_rest, Hkeys; [done|]. repeat constructor; by apply Hno.
    - apply Hkeys; [done|]. repeat constructor; by apply Hno. }
  intros label labelPlacement FormControlProps FormControlLabelProps rest Hc
    control.
  subst control. split; [|by apply Switch_checked].
  intros k Hk. rewrite Switch_passes; [|done|].
  - apply passed_rest, Hkeys; [done|]. repeat constructor; by apply Hno.
  - apply Hkeys; [done|]. repeat constructor; by apply Hno.
Qed.

(** [field_binding] inside a form with the name [email]. *)
Lemma field_binding_witness :
  bind_text (Some touched_form) 0 (Some "email")
  = (getFieldProps touched_form (ByName "email"),
     getFieldMeta touched_form "email")
  /\ bind_checkbox (Some touched_form) 0 (Some "email")
     = (getFieldProps touched_form (ByOptions "email" "checkbox"),
        getFieldMeta touched_form "email").
Proof.
  exact (proj1 (field_binding (Some touched_form) 0 (Some "email"))
           touched_form "email" eq_refl eq_refl).
Defined.

(** C1 as stated fails: inside a form, the value that reaches the text
    field of [<FormikTextField name="email" value="typed" />] is the
    caller's [typed] and not the [a@b] that [getFieldProps] returns. *)
Lemma caller_prop_overrides_field :
  prop (textfield_control
          (FormikTextField (Some touched_form) 0 (Some "email")
             {[ "value" := VStr "typed" ]})) "value"
  = VStr "typed"
  /\ field_value (getFieldProps touched_form (ByName "email")) = VStr "a@b"
  /\ prop (textfield_control
             (FormikTextField (Some touched_form) 0 (Some "email")
                {[ "value" := VStr "typed" ]})) "value"
     ≠ field_value (getFieldProps touched_form (ByName "email")).
Proof. vm_compute. repeat split; discriminate. Qed.

Section ErrorDisplay.

Context (formik : option FormikContextType) (r : nat) (name : option string).

Lemma showError_spec (meta : FieldMetaProps) :
  showError meta
  = meta_touched meta
    && match meta_error meta with
       | Some e => negb (String.eqb e "")
       | None => false
       end.
Proof.
  unfold showError, js_and, error_of.
  by destruct (meta_touched meta), (meta_error meta).
Qed.

(** [showError && <X/>] as a child. *)
Lemma and_child (b : bool) (x : jsval) :
  js_and (VBool b) x = if b then x else VBool false.
Proof. by destruct b. Qed.

Lemma TextField_error rest :
  let meta := (bind_text formik r name).2 in
  let out := FormikTextField formik r name rest in
  prop out "error"
  = (if showError meta then VBool true else get rest "error")
  /\ prop out "helperText"
     = (if showError meta then error_of meta else get rest "helperText").
Proof.
  unfold FormikTextField.
  destruct (bind_text formik r name) as [field meta]. simpl.
  rewrite <- (get_rest_without ["name"] rest "error")
    by (rewrite not_elem_of_cons; split; [done|apply not_elem_of_nil]).
  rewrite <- (get_rest_without ["name"] rest "helperText")
    by (rewrite not_elem_of_cons; split; [done|apply not_elem_of_nil]).
  split; jsx_get; [|done].
  unfold js_or. simpl. by destruct (showError meta).
Qed.

Lemma Textarea_error sx errorStyles rest :
  let meta := (bind_text formik r name).2 in
  let out := FormikCustomTextarea formik r sx name errorStyles rest in
  prop (textarea_control out) "aria-invalid" = VBool (showError meta)
  /\ type_of (child 1 out)
     = (if showError meta then Some "p" else None)
  /\ children_of (child 1 out)
     = (if showError meta then [error_of meta] else [])
  /\ renders_nothing (child 1 out) = negb (showError meta).
Proof.
  unfold textarea_control, FormikCustomTextarea.
  destruct (bind_text formik r name) as [field meta]. simpl.
  split; [by jsx_get|].
  unfold child. simpl. by destruct (showError meta).
Qed.

Lemma Checkbox_error label labelSx checkboxSx helperTextSx rest :
  let meta := (bind_checkbox formik r name).2 in
  let out :=
    FormikCheckbox formik r name label labelSx checkboxSx helperTextSx rest in
  prop out "error" = VBool (showError meta)
  /\ child 1 out
     = (if showError meta
        then VElem "FormHelperText" (jsx [Attr "sx" helperTextSx])
               [error_of meta]
        else VBool false).
Proof.
  unfold FormikCheckbox.
  destruct (bind_checkbox formik r name) as [field meta]. simpl.
  split; [by jsx_get|].
  unfold child. simpl. apply and_child.
Qed.

Lemma Switch_error label labelPlacement FormControlProps
    FormControlLabelProps rest :
  let meta := (bind_checkbox formik r name).2 in
  let out :=
    FormikSwitch formik r name label labelPlacement FormControlProps
      FormControlLabelProps rest in
  prop out "error"
  = match spread FormControlProps !! "error" with
    | Some v => v
    | None => VBool (showError meta)
    end
  /\ child 1 out
     = (if showError meta
        then VElem "FormHelperText" ∅ [error_of meta]
        else VBool false).
Proof.
  unfold FormikSwitch.
  destruct (bind_checkbox formik r name) as [field meta]. simpl.
  split.
  - unfold prop, props_of, jsx. simpl.
    destruct (spread FormControlProps !! "error") as [v|] eqn:He.
    + by apply get_union_l.
    + rewrite get_union_r by done. by jsx_get.
  - unfold child. simpl. apply and_child.
Qed.

Lemma RadioGroup_error label options row FormControlProps FormLabelProps
    FormControlLabelProps RadioProps FormHelperTextProps FormControlSx
    FormLabelSx RadioGroupSx FormControlLabelSx RadioSx FormHelperTextSx
    rest :
  let meta := (bind_text formik r name).2 in
  let out :=
    FormikRadioGroup formik r name label options row FormControlProps
      FormLabelProps FormControlLabelProps RadioProps FormHelperTextProps
      FormControlSx FormLabelSx RadioGroupSx FormControlLabelSx RadioSx
      FormHelperTextSx rest in
  prop out "error"
  = match spread FormControlProps !! "error" with
    | Some v => v
    | None => VBool (showError meta)
    end
  /\ child 2 out
     = (if showError meta
        then
          VElem "FormHelperText"
            (jsx [Spread (spread FormHelperTextProps);
                  Attr "sx" FormHelperTextSx])
            [error_of meta]
        else VBool false).
Proof.
  unfold FormikRadioGroup.
  destruct (bind_text formik r name) as [field meta]. simpl.
  split.
  - unfold prop, props_of, jsx. simpl.
    rewrite get_insert_ne by done.
    destruct (spread FormControlProps !! "error") as [v|] eqn:He.
    + by apply get_union_l.
    + rewrite get_union_r by done. by jsx_get.
  - unfold child. simpl. apply and_child.
Qed.

End ErrorDisplay.

(** C3, as amended.  In every input [showError] is [touched] and a
    non-empty [error].  When it holds the error text is rendered (as the
    helper text of the text field, in a [FormHelperText] after the checkbox,
    the switch and the radio group, in a [p] after the textarea) and the
    invalid flag is set: [error] on the text field and on the [FormControl]
    of the checkbox, [aria-invalid] on the textarea, and [error] on the
    [FormControl] of the switch and of the radio group unless
    [FormControlProps] has an [error] entry of its own, which then takes its
    place.  When [touched] is false [showError] is false and the error text
    is not rendered. *)
Theorem error_display (formik : option FormikContextType) (r : nat)
    (name : option string) :
  let shown meta :=
    meta_touched meta
    && match meta_error meta with
       | Some e => negb (String.eqb e "")
       | None => false
       end in
  let text := (bind_text formik r name).2 in
  let box := (bind_checkbox formik r name).2 in
  (forall meta, showError meta = shown meta)
  /\ (forall meta, meta_touched meta = false -> showError meta = false)
  /\ (forall rest,
        let out := FormikTextField formik r name rest in
        prop out "error"
        = (if shown text then VBool true else get rest "error")
        /\ prop out "helperText"
           = (if shown text then error_of text else get rest "helperText"))
  /\ (forall sx errorStyles rest,
        let out := FormikCustomTextarea formik r sx name errorStyles rest in
        prop (textarea_control out) "aria-invalid" = VBool (shown text)
        /\ type_of (child 1 out) = (if shown text then Some "p" else None)
        /\ children_of (child 1 out)
           = (if shown text then [error_of text] else [])
        /\ renders_nothing (child 1 out) = negb (shown text))
  /\ (forall label labelSx checkboxSx helperTextSx rest,
        let out :=
          FormikCheckbox formik r name label labelSx checkboxSx helperTextSx
            rest in
        prop out "error" = VBool (shown box)
        /\ child 1 out
           = (if shown box
              then VElem "FormHelperText" (jsx [Attr "sx" helperTextSx])
                     [error_of box]
              else VBool false))
  /\ (forall label labelPlacement FormControlProps FormControlLabelProps rest,
        let out :=
          FormikSwitch formik r name label labelPlacement FormControlProps
            FormControlLabelProps rest in
        prop out "error"
        = match spread FormControlProps !! "error" with
          | Some v => v
          | None => VBool (shown box)
          end
        /\ child 1 out
           = (if shown box
              then VElem "FormHelperText" ∅ [error_of box]
              else VBool false))
  /\ (forall label options row FormControlProps FormLabelProps
        FormControlLabelProps RadioProps FormHelperTextProps FormControlSx
        FormLabelSx RadioGroupSx FormControlLabelSx RadioSx FormHelperTextSx
        rest,
        let out :=
          FormikRadioGroup formik r name label options row FormControlProps
            FormLabelProps FormControlLabelProps RadioProps
            FormHelperTextProps FormControlSx FormLabelSx RadioGroupSx
            FormControlLabelSx RadioSx FormHelperTextSx rest in
        prop out "error"
        = match spread FormControlProps !! "error" with
          | Some v => v
          | None => VBool (shown text)
          end
        /\ child 2 out
           = (if shown text
              then
                VElem "FormHelperText"
                  (jsx [Spread (spread FormHelperTextProps);
                        Attr "sx" FormHelperTextSx])
                  [error_of text]
              else VBool false)).
Proof.
  intros shown text box. subst shown text box. cbv beta.
  split; [apply showError_spec|].
  split; [intros meta Ht; rewrite showError_spec; by rewrite Ht|].
  rewrite <- !showError_spec.
  split; [intros; apply TextField_error|].
  split; [intros; apply Textarea_error|].
  split; [intros; apply Checkbox_error|].
  split; [intros; apply Switch_error|].
  intros; apply RadioGroup_error.
Qed.

(** [error_display] on a field that is not touched. *)
Lemma error_display_witness :
  showError (getFieldMeta untouched_form "email") = false.
Proof.
  exact (proj1 (proj2 (error_display (Some untouched_form) 0 (Some "email")))
           (getFieldMeta untouched_form "email") eq_refl).
Defined.

(** C3 as stated fails for the switch: inside a form that reports the field
    touched with the error [required], [<FormikSwitch name="agree"
    FormControlProps={{ error: false }} />] shows the error text, and its
    [FormControl] has [error] false. *)
Lemma switch_error_flag_overridden :
  let out :=
    FormikSwitch (Some touched_form) 0 (Some "agree") VUndef None
      (VObj {[ "error" := VBool false ]}) VUndef ∅ in
  showError (bind_checkbox (Some touched_form) 0 (Some "agree")).2 = true
  /\ child 1 out = VElem "FormHelperText" ∅ [VStr "required"]
  /\ prop out "error" = VBool false
  /\ prop (switch_control out) "aria-invalid" = VUndef.
Proof. vm_compute. by repeat split. Qed.

(** What holds of C4: outside a form and without a name no input shows an
    error, and the value it hands to its control is the empty string
    unless the caller passes one. *)
Lemma unbound_shows_no_error (r : nat) :
  showError (bind_text None r None).2 = false
  /\ showError (bind_checkbox None r None).2 = false
  /\ (forall rest,
        prop (FormikTextField None r None rest) "value"
        = default (VStr "") (rest !! "value")).
Proof.
  repeat split. intros rest.
  pose proof (TextField_passes None r None rest "value") as H.
  unfold textfield_control in H. rewrite H.
  - rewrite passed_rest
      by (rewrite not_elem_of_cons; split; [done|apply not_elem_of_nil]).
    simpl. unfold passed.
    destruct (rest !! "value"); [done|].
    unfold get. by rewrite field_obj_value.
  - rewrite !not_elem_of_cons. repeat split; try done. apply not_elem_of_nil.
Qed.

(** C4, at the inputs where the code departs from it.  Outside a form and
    without a name, [<FormikCheckbox checked={true} />] hands
    [checked: false] to the checkbox, where the bare checkbox would be
    given the caller's [true]; and [<FormikTextField />] hands its text
    field [value: ''] and an [onChange] that does nothing, where the bare
    text field would be given neither and would keep what the user types. *)
Theorem unbound_inputs_differ_from_bare :
  let box :=
    checkbox_control
      (FormikCheckbox None 0 None VUndef VUndef VUndef VUndef
         {[ "checked" := VBool true ]}) in
  let text := textfield_control (FormikTextField None 0 None ∅) in
  type_of box = Some "Checkbox"
  /\ prop box "checked" = VBool false
  /\ prop (VElem "Checkbox" {[ "checked" := VBool true ]} []) "checked"
     = VBool true
  /\ type_of text = Some "TextField"
  /\ props_of text !! "value" = Some (VStr "")
  /\ props_of text !! "onChange"
     = Some (VFun (FArrowEmpty "field.onChange" 0))
  /\ call (FArrowEmpty "field.onChange" 0) [] = []
  /\ props_of (VElem "TextField" ∅ []) !! "value" = None.
Proof. vm_compute. by repeat split. Qed.

End InputFacts.

(** ** The modal *)

Module ModalFacts.

Import ModalComponent.

(** The calls that one call of an optional callback of the caller makes. *)
Lemma call_or_arrow_null site r (f : option nat) :
  call (or_arrow_null site r f) [] = from_option (fun f => [Invoked f []]) [] f.
Proof. by destruct f. Qed.

Lemma lifecycle_effect_open p :
  isOpen p = true ->
  lifecycle_effect p = from_option (fun f => [Invoked f []]) [] (onOpen p).
Proof. unfold lifecycle_effect. intros ->. simpl. by destruct (onOpen p). Qed.

Lemma lifecycle_effect_closed p :
  isOpen p = false ->
  lifecycle_effect p = from_option (fun f => [Invoked f []]) [] (onClose p).
Proof.
  unfold lifecycle_effect. intros ->. simpl. rewrite app_nil_r.
  by destruct (onClose p).
Qed.

Lemma life_snoc env p0 ps p :
  life env p0 (ps ++ [p])
  = update env p (instance (life env p0 ps)) (document (life env p0 ps)).
Proof. unfold life, updates. by rewrite foldl_app. Qed.

Lemma current_snoc p0 ps p : current p0 (ps ++ [p]) = p.
Proof. unfold current. apply last_last. Qed.

Lemma update_lifecycle_deps env p inst doc :
  last_lifecycle_deps (instance (update env p inst doc)) = lifecycle_deps p.
Proof. unfold update. by destruct (if same_listener_deps _ _ then _ else _). Qed.

Lemma update_trace env p inst doc :
  trace (update env p inst doc)
  = if same_lifecycle_deps (last_lifecycle_deps inst) (lifecycle_deps p)
    then [] else lifecycle_effect p.
Proof. unfold update. by destruct (if same_listener_deps _ _ then _ else _). Qed.

Lemma update_output env p inst doc :
  output (update env p inst doc) = Modal env (renders inst) p.
Proof. unfold update. by destruct (if same_listener_deps _ _ then _ else _). Qed.

Lemma mount_parts env p doc :
  trace (mount env p doc) = lifecycle_effect p
  /\ output (mount env p doc) = Modal env 0 p
  /\ last_lifecycle_deps (instance (mount env p doc)) = lifecycle_deps p.
Proof. unfold mount. by destruct (listener_effect env 0 p doc). Qed.

(** The dependencies React holds are those of the last render. *)
Lemma life_lifecycle_deps env p0 ps :
  last_lifecycle_deps (instance (life env p0 ps))
  = lifecycle_deps (current p0 ps).
Proof.
  destruct ps as [|p ps _] using rev_ind.
  - apply mount_parts.
  - rewrite life_snoc, current_snoc. apply update_lifecycle_deps.
Qed.

Lemma Modal_closed env r p : isOpen p = false -> Modal env r p = VBool false.
Proof. unfold Modal. by intros ->. Qed.

Lemma Modal_open env r p :
  window_defined env = true -> isOpen p = true ->
  exists content,
    Modal env r p = VPortal content "document.body"
    /\ renders_nothing content = false
    /\ child 0 content
       = VElem "div"
           (jsx [Attr "className"
                   (template (class_or (backdropClassName p)
                                (modal_styles env) "backdrop"));
                 Attr "aria-hidden" (VStr "true");
                 Attr "onClick"
                   (VFun (FBackdropOnClick r (backdropClick_of p)
                            (onRequestClose_of r p)))])
           [].
Proof.
  intros Hw Ho. unfold Modal. rewrite Hw, Ho. simpl. eauto.
Qed.

(** *** The key listener *)

Lemma same_fn_refl f : same_fn f f = true.
Proof. unfold same_fn. by apply bool_decide_eq_true. Qed.

Lemma remove_only_listener l :
  removeEventListener "keydown" l {| listeners := [("keydown", l)] |}
  = empty_document.
Proof.
  unfold removeEventListener, same_listener. simpl.
  by rewrite same_fn_refl.
Qed.

(** Two renders agree on [onRequestClose] as a dependency only when the
    caller passes the same function to both: the default arrow of a render
    is a new function. *)
Lemma same_onRequestClose rl r q p :
  (rl < r)%nat ->
  same_fn (onRequestClose_of rl q) (onRequestClose_of r p) = true ->
  onRequestClose q = onRequestClose p /\ is_Some (onRequestClose p).
Proof.
  unfold same_fn, onRequestClose_of, or_arrow_null. intros Hlt H.
  apply bool_decide_eq_true in H.
  destruct (onRequestClose q) as [f|], (onRequestClose p) as [g|];
    simpl in H; try discriminate.
  - injection H as ->. eauto.
  - injection H as ->. lia.
Qed.

Lemma mount_listening env p :
  window_defined env = true -> listening p (mount env p empty_document).
Proof.
  intros Hw. unfold mount, listener_effect. rewrite Hw. simpl.
  exists 0%nat, 0%nat. repeat split; simpl; lia.
Qed.

Lemma update_listening env q p c :
  window_defined env = true ->
  listening q c ->
  listening p (update env p (instance c) (document c)).
Proof.
  intros Hw (r' & rl & Hr & Hdeps & Hdoc & Hclean).
  unfold update. rewrite Hdeps, Hclean.
  destruct (same_listener_deps _ _) eqn:Hsame.
  - unfold same_listener_deps, listener_deps in Hsame. simpl in Hsame.
    apply andb_prop in Hsame as [Hsame Hfn].
    apply andb_prop in Hsame as [Ho He].
    apply bool_decide_eq_true in Ho, He.
    destruct (same_onRequestClose rl (renders (instance c)) q p) as [Hf _];
      [lia|done|].
    assert (Heq : closeListener r' q = closeListener r' p).
    { unfold closeListener, onRequestClose_of. by rewrite Ho, He, Hf. }
    exists r', (renders (instance c)). simpl.
    repeat split; [lia|lia|by rewrite Hdoc, Heq|by rewrite Heq].
  - unfold listener_effect, run_cleanup. rewrite Hw. simpl.
    destruct (document c) as [ls]. simpl in Hdoc. subst ls.
    rewrite remove_only_listener. simpl.
    exists (renders (instance c)), (renders (instance c)). simpl.
    repeat split; lia.
Qed.

Lemma life_listening env p0 ps :
  window_defined env = true ->
  listening (current p0 ps) (life env p0 ps).
Proof.
  intros Hw. induction ps as [|p ps IH] using rev_ind.
  - by apply mount_listening.
  - rewrite life_snoc, current_snoc. by apply (update_listening env _ _ _ Hw IH).
Qed.

(** A key press on a document that holds the listener of [q]. *)
Lemma dispatch_key r' q key :
  dispatchEvent "keydown" (keydown key)
    {| listeners := [("keydown", closeListener r' q)] |}
  = if isOpen q && String.eqb key "Escape" && escClick_of q
    then from_option (fun f => [Invoked f []]) [] (onRequestClose q)
    else [].
Proof.
  unfold dispatchEvent, closeListener. simpl. rewrite app_nil_r.
  unfold jsx. simpl. rewrite get_insert_eq. simpl.
  destruct (isOpen q && String.eqb key "Escape" && escClick_of q); [|done].
  apply call_or_arrow_null.
Qed.

Lemma isOpen_changed q p :
  isOpen q ≠ isOpen p ->
  same_lifecycle_deps (lifecycle_deps q) (lifecycle_deps p) = false.
Proof.
  intros Hne. unfold same_lifecycle_deps, lifecycle_deps.
  apply bool_decide_eq_false. intros H. by injection H.
Qed.

(** What the portal of an open modal holds: the backdrop and the box
    with the header, the body and the footer. *)
Lemma Modal_open_regions env r p :
  window_defined env = true -> isOpen p = true ->
  exists content,
    Modal env r p = VPortal content "document.body"
    /\ length (children_of content) = 2%nat
    /\ children_of (child 1 content)
       = [match headerComponent p with
          | Some custom =>
              custom (default "" (title p)) (onRequestClose_of r p)
          | None =>
              Header env (default "" (title p)) (onRequestClose_of r p)
                (headerClassName p)
          end;
          match bodyComponent p with
          | Some custom =>
              custom (default VNull (children p)) (onRequestClose_of r p)
          | None => Body env (default VNull (children p)) (bodyClassName p)
          end;
          match footerComponent p with
          | Some custom =>
              custom (or_arrow_null "onConfirm" r (onConfirm p))
                (or_arrow_null "onCancel" r (onCancel p))
          | None =>
              if default false (isConfirmationModal p)
              then
                Footer env (or_arrow_null "onConfirm" r (onConfirm p))
                  (or_arrow_null "onCancel" r (onCancel p))
                  (default "Confirm" (confirmLabel p))
                  (default "Cancel" (cancelLabel p)) (footerClassName p)
              else VNull
          end].
Proof.
  intros Hw Ho. unfold Modal. rewrite Hw, Ho. simpl. eauto.
Qed.

(** The flag of the key gesture, read off the prop: on unless the caller
    passes [false]. *)
Lemma escClick_of_prop p :
  escClick_of p = negb (bool_decide (requestCloseOnEscClick p = Some false)).
Proof. unfold escClick_of. by destruct (requestCloseOnEscClick p) as [[]|]. Qed.

Lemma backdropClick_of_prop p :
  backdropClick_of p
  = negb (bool_decide (requestCloseOnBackdropClick p = Some false)).
Proof.
  unfold backdropClick_of.
  by destruct (requestCloseOnBackdropClick p) as [[]|].
Qed.

(** C2.  When a mounted modal is rendered with [isOpen] true after a
    render with [isOpen] false, the commit calls [onOpen] once, if the
    caller passed one, and nothing else, and a further render with the
    same props calls nothing.  In a browser that render returns a portal
    into [document.body] whose content is the backdrop and the box of
    three regions: the header, which shows the title unless the caller
    passed a header of their own; the body, a [div] around the modal's
    children unless the caller passed a body of their own, which is then
    given the children; and the footer.  When the modal is rendered with
    [isOpen] false after a render with [isOpen] true, and when it is first
    rendered with [isOpen] false, the commit calls [onClose] once (if
    passed) and nothing else, and the render returns [false]: no portal.
    Any render with [isOpen] false returns [false]. *)
Theorem open_close_callbacks (env : Env) (p0 : ModalProps)
    (ps : list ModalProps) (p : ModalProps) :
  let q := current p0 ps in
  let c' := life env p0 (ps ++ [p]) in
  let n := renders (instance (life env p0 ps)) in
  let requestClose :=
    from_option FExt (FArrowNull "onRequestClose" n) (onRequestClose p) in
  let once f := from_option (fun f : nat => [Invoked f []]) [] f in
  (isOpen q = false -> isOpen p = true ->
     trace c' = once (onOpen p)
     /\ trace (life env p0 ((ps ++ [p]) ++ [p])) = []
     /\ (window_defined env = true ->
         exists content,
           mounted (output c') = Some (content, "document.body")
           /\ type_of content = Some "div"
           /\ length (children_of content) = 2%nat
           /\ children_of (modal_box (output c'))
              = [header_of (output c'); body_of (output c');
                 footer_of (output c')]
           /\ (headerComponent p = None ->
               children_of (child 0 (header_of (output c')))
               = [VStr (default "" (title p))])
           /\ (forall custom, headerComponent p = Some custom ->
                 header_of (output c')
                 = custom (default "" (title p)) requestClose)
           /\ (bodyComponent p = None ->
               type_of (body_of (output c')) = Some "div"
               /\ children_of (body_of (output c'))
                  = [default VNull (children p)])
           /\ (forall custom, bodyComponent p = Some custom ->
                 body_of (output c')
                 = custom (default VNull (children p)) requestClose)))
  /\ (isOpen q = true -> isOpen p = false ->
      trace c' = once (onClose p)
      /\ trace (life env p0 ((ps ++ [p]) ++ [p])) = []
      /\ output c' = VBool false
      /\ mounted (output c') = None)
  /\ (isOpen p0 = false ->
      trace (life env p0 []) = once (onClose p0)
      /\ output (life env p0 []) = VBool false
      /\ mounted (output (life env p0 [])) = None)
  /\ (forall r, isOpen p = false ->
        Modal env r p = VBool false /\ mounted (Modal env r p) = None).
Proof.
  intros q c' n requestClose once. subst q c' n requestClose once. cbv beta.
  assert (Hagain : trace (life env p0 ((ps ++ [p]) ++ [p])) = []).
  { rewrite (life_snoc env p0 (ps ++ [p]) p), update_trace.
    rewrite life_lifecycle_deps, current_snoc.
    unfold same_lifecycle_deps. by rewrite bool_decide_eq_true_2. }
  rewrite life_snoc, update_trace, update_output, life_lifecycle_deps.
  split; [|split; [|split]].
  - intros Hq Hp. split; [|split; [done|]].
    { rewrite isOpen_changed by congruence. by apply lifecycle_effect_open. }
    intros Hw.
    destruct (Modal_open_regions env
                (renders (instance (life env p0 ps))) p Hw Hp)
      as (content & HM & Hlen & Hbox).
    assert (Hc : exists type props backdrop box,
               content = VElem type props [backdrop; box]
               /\ type = "div").
    { unfold Modal in HM. rewrite Hw, Hp in HM. simpl in HM.
      injection HM as <-. by eexists _, _, _, _. }
    destruct Hc as (type & props & backdrop & box & -> & ->).
    change (child 1 (VElem "div" props [backdrop; box])) with box in Hbox.
    assert (Hmb : modal_box
                    (Modal env (renders (instance (life env p0 ps))) p)
                  = box)
      by (unfold modal_box; by rewrite HM).
    exists (VElem "div" props [backdrop; box]).
    unfold header_of, body_of, footer_of. rewrite Hmb, HM.
    unfold child. rewrite Hbox.
    cbn [mounted type_of children_of length lookup list_lookup default
         from_option].
    split; [reflexivity|]. split; [reflexivity|]. split; [reflexivity|].
    split; [reflexivity|].
    split; [intros Hh; rewrite Hh; reflexivity|].
    split; [intros custom Hh; rewrite Hh; reflexivity|].
    split; [intros Hb; rewrite Hb; split; reflexivity|].
    intros custom Hb. rewrite Hb. reflexivity.
  - intros Hq Hp. split; [|split; [done|]].
    { rewrite isOpen_changed by congruence.
      by apply lifecycle_effect_closed. }
    by rewrite Modal_closed.
  - intros Hp0. unfold life. simpl.
    rewrite (proj1 (mount_parts _ _ _)), (proj1 (proj2 (mount_parts _ _ _))).
    rewrite lifecycle_effect_closed by done. by rewrite Modal_closed.
  - intros r Hp. by rewrite Modal_closed.
Qed.

(** [open_close_callbacks] on a modal mounted closed and then opened. *)
Lemma open_close_callbacks_witness :
  trace (life browser (modal_props false) ([] ++ [modal_props true]))
  = [Invoked 1 []]
  /\ trace
       (life browser (modal_props false)
          (([] ++ [modal_props true]) ++ [modal_props true]))
     = [].
Proof.
  exact (let H :=
           proj1
             (open_close_callbacks browser (modal_props false) []
                (modal_props true))
             eq_refl eq_refl in
         conj (proj1 H) (proj1 (proj2 H))).
Defined.

(** C5.  In a browser, with the modal open after any number of renders,
    one Escape key press calls [onRequestClose] exactly once, and calls
    nothing else, unless the caller passed [requestCloseOnEscClick] as
    [false] (left out, the prop counts as [true]); with
    [requestCloseOnEscClick={false}] the key press calls nothing. *)
Theorem escape_key (env : Env) (p0 : ModalProps) (ps : list ModalProps) :
  window_defined env = true ->
  isOpen (current p0 ps) = true ->
  let q := current p0 ps in
  let pressed :=
    dispatchEvent "keydown" (keydown "Escape") (document (life env p0 ps)) in
  (forall f, onRequestClose q = Some f ->
     requestCloseOnEscClick q ≠ Some false ->
     pressed = [Invoked f []])
  /\ (requestCloseOnEscClick q = Some false -> pressed = [])
  /\ (onRequestClose q = None -> pressed = []).
Proof.
  intros Hw Ho q pressed. subst q pressed.
  destruct (life_listening env p0 ps Hw) as (r' & rl & _ & _ & Hdoc & _).
  destruct (document (life env p0 ps)) as [ls]. simpl in Hdoc. subst ls.
  rewrite dispatch_key, Ho, escClick_of_prop. simpl.
  split; [|split].
  - intros f -> Hflag. by rewrite bool_decide_eq_false_2.
  - intros Hflag. by rewrite bool_decide_eq_true_2.
  - intros ->. by destruct (bool_decide _).
Qed.

(** [escape_key] on an open modal, once with
    [requestCloseOnEscClick={true}] and once with
    [requestCloseOnEscClick={false}]. *)
Lemma escape_key_witness :
  dispatchEvent "keydown" (keydown "Escape")
    (document
       (life browser (modal_flagged true (Some 3%nat) (Some true) None) []))
  = [Invoked 3 []]
  /\ dispatchEvent "keydown" (keydown "Escape")
       (document
          (life browser (modal_flagged true (Some 3%nat) (Some false) None)
             []))
     = [].
Proof.
  exact (conj
           (proj1
              (escape_key browser
                 (modal_flagged true (Some 3%nat) (Some true) None) []
                 eq_refl eq_refl)
              3%nat eq_refl ltac:(discriminate))
           (proj1 (proj2
              (escape_key browser
                 (modal_flagged true (Some 3%nat) (Some false) None) []
                 eq_refl eq_refl))
              eq_refl)).
Defined.

(** C6.  In a browser, the first child of what an open modal mounts is
    the backdrop, hidden from assistive technology.  A click on it calls
    [onRequestClose] once, and nothing else, unless the caller passed
    [requestCloseOnBackdropClick] as [false] (left out, the prop counts as
    [true]); with [requestCloseOnBackdropClick={false}] the click calls
    nothing.  So the callback is called if and only if the flag is
    true. *)
Theorem backdrop_click (env : Env) (r : nat) (p : ModalProps) :
  window_defined env = true ->
  isOpen p = true ->
  let clicked := click (backdrop (Modal env r p)) in
  prop (backdrop (Modal env r p)) "aria-hidden" = VStr "true"
  /\ (forall f, onRequestClose p = Some f ->
        requestCloseOnBackdropClick p ≠ Some false ->
        clicked = Returned [Invoked f []])
  /\ (requestCloseOnBackdropClick p = Some false -> clicked = Returned [])
  /\ (onRequestClose p = None -> clicked = Returned [])
  /\ (forall f, onRequestClose p = Some f ->
        (clicked = Returned [Invoked f []]
         <-> requestCloseOnBackdropClick p ≠ Some false)).
Proof.
  intros Hw Ho clicked.
  assert (Hb : backdrop (Modal env r p)
               = VElem "div"
                   (jsx [Attr "className"
                           (template (class_or (backdropClassName p)
                                        (modal_styles env) "backdrop"));
                         Attr "aria-hidden" (VStr "true");
                         Attr "onClick"
                           (VFun (FBackdropOnClick r (backdropClick_of p)
                                    (onRequestClose_of r p)))])
                   []).
  { unfold backdrop.
    destruct (Modal_open env r p Hw Ho) as (content & HM & _ & Hb).
    by rewrite HM. }
  assert (Hc : clicked
               = Returned
                   (if negb (bool_decide
                               (requestCloseOnBackdropClick p = Some false))
                    then from_option (fun f => [Invoked f []]) []
                           (onRequestClose p)
                    else [])).
  { subst clicked. rewrite Hb.
    unfold click, prop, props_of, jsx. simpl. rewrite get_insert_eq. simpl.
    rewrite backdropClick_of_prop.
    destruct (negb _); [|done].
    f_equal. apply call_or_arrow_null. }
  split.
  { rewrite Hb. unfold prop, props_of, jsx. simpl.
    rewrite get_insert_ne by done. by rewrite get_insert_eq. }
  rewrite Hc. split; [|split; [|split]].
  - intros f -> Hflag. by rewrite bool_decide_eq_false_2.
  - intros Hflag. by rewrite bool_decide_eq_true_2.
  - intros ->. by destruct (negb _).
  - intros f ->. simpl. split.
    + intros H Hflag. by rewrite bool_decide_eq_true_2 in H.
    + intros Hflag. by rewrite bool_decide_eq_false_2.
Qed.

(** [backdrop_click] on an open modal, once with
    [requestCloseOnBackdropClick={true}] and once with
    [requestCloseOnBackdropClick={false}]. *)
Lemma backdrop_click_witness :
  click
    (backdrop
       (Modal browser 0 (modal_flagged true (Some 3%nat) None (Some true))))
  = Returned [Invoked 3 []]
  /\ click
       (backdrop
          (Modal browser 0
             (modal_flagged true (Some 3%nat) None (Some false))))
     = Returned [].
Proof.
  exact (conj
           (proj1 (proj2
              (backdrop_click browser 0
                 (modal_flagged true (Some 3%nat) None (Some true))
                 eq_refl eq_refl))
              3%nat eq_refl ltac:(discriminate))
           (proj1 (proj2 (proj2
              (backdrop_click browser 0
                 (modal_flagged true (Some 3%nat) None (Some false))
                 eq_refl eq_refl)))
              eq_refl)).
Defined.

(** C7, as amended.  In a browser the document holds exactly one key
    listener of the modal for as long as the modal is mounted, whether
    [isOpen] is true or false.  The listener is the [closeListener] of an
    earlier or of the last render and holds the [isOpen], the
    [requestCloseOnEscClick] ([true] when left out) and the
    [onRequestClose] of the last render: a key press calls
    [onRequestClose] exactly when that [isOpen] is true, the key is Escape
    and the flag is not [false], so while the modal is closed a key press
    calls nothing.  When [isOpen], [requestCloseOnEscClick] or
    [onRequestClose] changes, the listener is removed and the one made by
    the new render takes its place, and unmounting removes the listener,
    after which none is left. *)
Theorem listener_while_mounted (env : Env) (p0 : ModalProps)
    (ps : list ModalProps) :
  window_defined env = true ->
  let c := life env p0 ps in
  let q := current p0 ps in
  let listener r p :=
    FCloseListener r (isOpen p) (default true (requestCloseOnEscClick p))
      (from_option FExt (FArrowNull "onRequestClose" r) (onRequestClose p)) in
  (exists r', (r' < renders (instance c))%nat
     /\ listeners (document c) = [("keydown", listener r' q)])
  /\ (forall key,
        dispatchEvent "keydown" (keydown key) (document c)
        = if isOpen q && String.eqb key "Escape"
             && negb (bool_decide (requestCloseOnEscClick q = Some false))
          then from_option (fun f => [Invoked f []]) [] (onRequestClose q)
          else [])
  /\ (isOpen q = false ->
      forall key, dispatchEvent "keydown" (keydown key) (document c) = [])
  /\ listeners (unmount (instance c) (document c)) = []
  /\ (forall p,
        isOpen p ≠ isOpen q
        \/ default true (requestCloseOnEscClick p)
           ≠ default true (requestCloseOnEscClick q)
        \/ onRequestClose p ≠ onRequestClose q ->
        listeners (document (life env p0 (ps ++ [p])))
        = [("keydown", listener (renders (instance c)) p)]).
Proof.
  intros Hw c q listener. subst c q listener. cbv beta.
  destruct (life_listening env p0 ps Hw)
    as (r' & rl & Hr & Hdeps & Hdoc & Hclean).
  split; [|split; [|split; [|split]]].
  - exists r'. split; [lia|done].
  - intros key.
    destruct (document (life env p0 ps)) as [ls]. simpl in Hdoc. subst ls.
    by rewrite dispatch_key, escClick_of_prop.
  - intros Hclosed key.
    destruct (document (life env p0 ps)) as [ls]. simpl in Hdoc. subst ls.
    rewrite dispatch_key, Hclosed. done.
  - unfold unmount, run_cleanup. rewrite Hclean.
    destruct (document (life env p0 ps)) as [ls]. simpl in Hdoc. subst ls.
    by rewrite remove_only_listener.
  - intros p Hne. rewrite life_snoc. unfold update.
    rewrite Hdeps, Hclean.
    assert (Hsame : same_listener_deps (listener_deps rl (current p0 ps))
                      (listener_deps (renders (instance (life env p0 ps))) p)
                    = false).
    { destruct (same_listener_deps _ _) eqn:Hsame; [exfalso|done].
      unfold same_listener_deps, listener_deps in Hsame. simpl in Hsame.
      apply andb_prop in Hsame as [Hsame Hfn].
      apply andb_prop in Hsame as [Ho He].
      apply bool_decide_eq_true in Ho, He.
      destruct (same_onRequestClose rl (renders (instance (life env p0 ps)))
                  (current p0 ps) p) as [Hf _]; [lia|done|].
      destruct Hne as [Hne | [Hne | Hne]]; by apply Hne. }
    rewrite Hsame. unfold listener_effect, run_cleanup. rewrite Hw.
    destruct (document (life env p0 ps)) as [ls]. simpl in Hdoc. subst ls.
    by rewrite remove_only_listener.
Qed.

(** [listener_while_mounted] on a modal mounted open with
    [requestCloseOnEscClick={true}] and rendered again with
    [requestCloseOnEscClick={false}]: the listener is replaced by one
    that holds the new flag. *)
Lemma listener_while_mounted_witness :
  listeners
    (document
       (life browser (modal_flagged true (Some 3%nat) (Some true) None)
          ([] ++ [modal_flagged true (Some 3%nat) (Some false) None])))
  = [("keydown", FCloseListener 1 true false (FExt 3))].
Proof.
  assert (Hflag :
            default true
              (requestCloseOnEscClick
                 (modal_flagged true (Some 3%nat) (Some false) None))
            ≠ default true
                (requestCloseOnEscClick
                   (current (modal_flagged true (Some 3%nat) (Some true) None)
                      [])))
    by discriminate.
  exact (proj2 (proj2 (proj2 (proj2
           (listener_while_mounted browser
              (modal_flagged true (Some 3%nat) (Some true) None) []
              eq_refl))))
           (modal_flagged true (Some 3%nat) (Some false) None)
           (or_intror (or_introl Hflag))).
Defined.

(** C7 as stated fails: a modal mounted with [isOpen] false has its key
    listener on the document although the open flag is not true. *)
Lemma listener_present_while_closed :
  isOpen (modal_props false) = false
  /\ listeners (document (life browser (modal_props false) []))
     = [("keydown", FCloseListener 0 false true (FExt 3))]
  /\ listeners (document (life browser (modal_props false) [])) ≠ [].
Proof. vm_compute. by repeat split. Qed.

End ModalFacts.

(** ** Components that take a list of items *)

Module ListFacts.

Import Lists.

(** C8, as amended.  CustomBreadcrumb, given no [items] array or an empty
    one, logs one warning on the console, returns [null] and does not
    throw, whatever its other props and whether or not it has been
    mounted.  (CustomTabs and CustomAccordion have no such guard.) *)
Theorem breadcrumb_without_items (isMounted : bool)
    (items : option (list BreadcrumbItem)) (separator : option jsval)
    (containerStyle linkStyle : jsval)
    (maxItems itemsBeforeCollapse itemsAfterCollapse : option Z)
    (expandText : option string) (rest : jsobj) :
  items = None \/ items = Some [] ->
  CustomBreadcrumb isMounted items separator containerStyle linkStyle maxItems
    itemsBeforeCollapse itemsAfterCollapse expandText rest
  = ([ConsoleWarn breadcrumb_warning], Returned VNull).
Proof. by intros [-> | ->]. Qed.

(** [breadcrumb_without_items] on [<CustomBreadcrumb items={[]} />]. *)
Lemma breadcrumb_without_items_witness :
  CustomBreadcrumb false (Some []) None VUndef VUndef None None None None ∅
  = ([ConsoleWarn breadcrumb_warning], Returned VNull).
Proof.
  exact (breadcrumb_without_items false (Some []) None VUndef VUndef None None
           None None ∅ (or_intror eq_refl)).
Defined.

(** With items, and once mounted, the breadcrumb warns of nothing and
    returns an element with one child for each item. *)
Lemma breadcrumb_with_items item items separator containerStyle linkStyle
    maxItems itemsBeforeCollapse itemsAfterCollapse expandText rest :
  exists node,
    CustomBreadcrumb true (Some (item :: items)) separator containerStyle
      linkStyle maxItems itemsBeforeCollapse itemsAfterCollapse expandText
      rest
    = ([], Returned node)
    /\ type_of node = Some "Breadcrumbs"
    /\ length (children_of node) = S (length items).
Proof.
  eexists. split; [reflexivity|]. split; [done|].
  simpl. by rewrite length_imap.
Qed.

(** C8 as stated fails for the other two components that require a list
    of items: with an empty array CustomTabs and CustomAccordion log
    nothing and return an element, not [null]. *)
Lemma tabs_and_accordion_do_not_warn :
  (CustomTabs_mount (Some []) VUndef VUndef VUndef None ∅).1 = []
  /\ (exists stack,
        (CustomTabs_mount (Some []) VUndef VUndef VUndef None ∅).2
        = Returned stack
        /\ type_of stack = Some "Stack")
  /\ CustomAccordion (Some []) VUndef VUndef VUndef ∅
     = ([], Returned (VElem "div" (jsx [Attr "style" VUndef]) []))
  /\ CustomAccordion (Some []) VUndef VUndef VUndef ∅
     ≠ ([ConsoleWarn breadcrumb_warning], Returned VNull).
Proof.
  split; [done|]. split; [eexists; split; [reflexivity|done]|].
  split; [done|]. discriminate.
Qed.

(** The part of the content box that React renders, in terms of the
    items. *)
Lemma content_of_active (activeTab : tabval) (items : list CustomTabItem) :
  List.filter (fun c => negb (renders_nothing c))
    (map (fun item =>
            if strict_eq (tab_value item) activeTab
            then
              VElem "div" (jsx [Attr "key" (val_of (tab_value item))])
                [tab_content item]
            else VBool false)
       items)
  = map (fun item =>
           VElem "div" (jsx [Attr "key" (val_of (tab_value item))])
             [tab_content item])
      (List.filter (fun item => bool_decide (tab_value item = activeTab))
         items).
Proof.
  induction items as [|item items IH]; [done|].
  simpl. unfold strict_eq in *.
  destruct (bool_decide (tab_value item = activeTab)); simpl; by rewrite IH.
Qed.

(** A tab value is falsy when it is the empty string or the number 0. *)
Lemma falsy_tabval (v : tabval) :
  truthy (val_of v) = negb (bool_decide (v = TStr "" \/ v = TNum 0)).
Proof.
  destruct v as [s|n]; simpl.
  - destruct (String.eqb_spec s "") as [->|Hne]; simpl; [done|].
    rewrite bool_decide_eq_false_2; [done|].
    intros [H|H]; [|discriminate]. injection H as H. done.
  - destruct (Z.eqb_spec n 0) as [->|Hne]; simpl; [done|].
    rewrite bool_decide_eq_false_2; [done|].
    intros [H|H]; [discriminate|]. injection H as H. done.
Qed.

(** One render of the tabs over any list of items: the bar and the
    content box. *)
Lemma tabs_render (r : nat) (activeTab : tabval) (items : list CustomTabItem)
    (containerStyle tabProps boxProps : jsval) (direction : option string)
    (rest : jsobj) :
  exists stack,
    CustomTabs r activeTab (Some items) containerStyle tabProps boxProps
      direction rest
    = ([], Returned stack)
    /\ type_of (child 0 stack) = Some "Tabs"
    /\ prop (child 0 stack) "value"
       = default (val_of activeTab) (rest !! "value")
    /\ length (children_of (child 0 stack)) = length items
    /\ (forall i item, items !! i = Some item ->
          let tab := child i (child 0 stack) in
          type_of tab = Some "Tab"
          /\ prop tab "value"
             = default (val_of (tab_value item))
                 (spread tabProps !! "value")
          /\ prop tab "label"
             = default (tab_label item) (spread tabProps !! "label"))
    /\ type_of (child 1 stack) = Some "Box"
    /\ map children_of (rendered_children (child 1 stack))
       = map (fun item => [tab_content item])
           (List.filter (fun item => bool_decide (tab_value item = activeTab))
              items).
Proof.
  eexists. split; [reflexivity|].
  split; [reflexivity|]. split; [|split; [|split; [|split]]].
  - unfold prop, child, props_of, children_of, jsx. simpl.
    rewrite get_union_default.
    rewrite <- (rest_without_lookup_notin
                  ["items"; "containerStyle"; "tabProps"; "boxProps";
                   "direction"] rest "value")
      by (rewrite !not_elem_of_cons; repeat split; try done;
          apply not_elem_of_nil).
    f_equal; by repeat rewrite get_insert_ne by done.
  - unfold child. simpl. by rewrite length_map.
  - intros i item Hi tab. subst tab. unfold child, id.
    cbn [children_of lookup list_lookup default from_option].
    change (map ?f items) with (f <$> items).
    rewrite list_lookup_fmap, Hi. cbn [fmap option_fmap option_map default].
    split; [reflexivity|].
    unfold prop, props_of, jsx, id. simpl.
    rewrite !get_union_default.
    split; f_equal; by repeat rewrite ?get_insert_eq, ?get_insert_ne by done.
  - reflexivity.
  - unfold rendered_children, child. simpl children_of.
    rewrite content_of_active. rewrite <- list_fmap_compose.
    by apply list_fmap_ext.
Qed.

(** C10.  CustomTabs with an empty array does not throw: the active tab
    starts at [0], the tab bar has no tab and the content box no child.
    With a first item, the first render starts with the active tab at
    that item's value, or at [0] when the value is falsy (the empty string
    or [0]): the bar is given that value and the content box shows the
    contents of exactly the items whose value is (strictly) equal to it.
    In every render the tab bar has one tab for each item, in order, with
    the item's value and label (unless [tabProps] carries its own), and the
    children of the content box that React renders are, in order, the
    contents of exactly the items whose value is equal to the active
    tab. *)
Theorem tabs_active_content (containerStyle tabProps boxProps : jsval)
    (direction : option string) (rest : jsobj) :
  (initial_activeTab (Some []) = Returned (TNum 0)
   /\ exists stack,
        CustomTabs_mount (Some []) containerStyle tabProps boxProps direction
          rest
        = ([], Returned stack)
        /\ type_of (child 0 stack) = Some "Tabs"
        /\ prop (child 0 stack) "value"
           = default (VNum 0) (rest !! "value")
        /\ children_of (child 0 stack) = []
        /\ type_of (child 1 stack) = Some "Box"
        /\ children_of (child 1 stack) = [])
  /\ (forall item items,
        let first :=
          if bool_decide (tab_value item = TStr "" \/ tab_value item = TNum 0)
          then TNum 0
          else tab_value item in
        initial_activeTab (Some (item :: items)) = Returned first
        /\ exists stack,
             CustomTabs_mount (Some (item :: items)) containerStyle tabProps
               boxProps direction rest
             = ([], Returned stack)
             /\ type_of (child 0 stack) = Some "Tabs"
             /\ prop (child 0 stack) "value"
                = default (val_of first) (rest !! "value")
             /\ length (children_of (child 0 stack)) = S (length items)
             /\ type_of (child 1 stack) = Some "Box"
             /\ map children_of (rendered_children (child 1 stack))
                = map (fun item => [tab_content item])
                    (List.filter
                       (fun item => bool_decide (tab_value item = first))
                       (item :: items)))
  /\ (forall r activeTab items,
        exists stack,
          CustomTabs r activeTab (Some items) containerStyle tabProps boxProps
            direction rest
          = ([], Returned stack)
          /\ length (children_of (child 0 stack)) = length items
          /\ (forall i item, items !! i = Some item ->
                let tab := child i (child 0 stack) in
                type_of tab = Some "Tab"
                /\ prop tab "value"
                   = default (val_of (tab_value item))
                       (spread tabProps !! "value")
                /\ prop tab "label"
                   = default (tab_label item) (spread tabProps !! "label"))
          /\ map children_of (rendered_children (child 1 stack))
             = map (fun item => [tab_content item])
                 (List.filter
                    (fun item => bool_decide (tab_value item = activeTab))
                    items)).
Proof.
  split; [split; [done|]|split].
  - destruct (tabs_render 0 (TNum 0) [] containerStyle tabProps boxProps
                direction rest)
      as (stack & Hs & Hbar & Hv & Hlen & _ & Hbox & Hcontent).
    exists stack. split; [done|]. split; [done|]. split; [done|].
    split; [by apply nil_length_inv|]. split; [done|].
    clear Hv Hlen Hcontent. revert Hs Hbox. unfold CustomTabs. simpl.
    intros Hs. injection Hs as <-. done.
  - intros item items first.
    assert (Hinit : initial_activeTab (Some (item :: items))
                    = Returned first).
    { unfold initial_activeTab. simpl. rewrite falsy_tabval. subst first.
      by destruct (bool_decide _). }
    split; [done|].
    unfold CustomTabs_mount. rewrite Hinit.
    destruct (tabs_render 0 first (item :: items) containerStyle tabProps
                boxProps direction rest)
      as (stack & Hs & Hbar & Hv & Hlen & _ & Hbox & Hcontent).
    exists stack. by repeat split.
  - intros r activeTab items.
    destruct (tabs_render r activeTab items containerStyle tabProps boxProps
                direction rest)
      as (stack & Hs & _ & _ & Hlen & Htabs & _ & Hcontent).
    exists stack. split; [done|]. split; [done|]. split; [exact Htabs|done].
Qed.

(** [tabs_active_content] on the first render of two tabs: it starts at
    the value of the first. *)
Lemma tabs_active_content_witness :
  exists stack,
    CustomTabs_mount
      (Some [mkTabItem (VStr "A") (VStr "first") (TStr "a");
             mkTabItem (VStr "B") (VStr "second") (TStr "b")])
      VUndef VUndef VUndef None ∅
    = ([], Returned stack)
    /\ type_of (child 0 stack) = Some "Tabs"
    /\ prop (child 0 stack) "value" = VStr "a"
    /\ length (children_of (child 0 stack)) = 2%nat
    /\ type_of (child 1 stack) = Some "Box"
    /\ map children_of (rendered_children (child 1 stack)) = [[VStr "first"]].
Proof.
  exact (proj2
           (proj1 (proj2 (tabs_active_content VUndef VUndef VUndef None ∅))
              (mkTabItem (VStr "A") (VStr "first") (TStr "a"))
              [mkTabItem (VStr "B") (VStr "second") (TStr "b")])).
Defined.

End ListFacts.

(** ** Pagination *)

Module PaginationFacts.

Import Pagination.

(** C9.  CustomPagination calls no hook and keeps nothing between
    renders.  The [Pagination] it renders is given the caller's [count]
    and [page] and, as [onChange], the caller's own function, none of
    which the remaining props can replace: with [count=10] and [page=3],
    calling the change handler with [(event, 4)] calls the caller's
    [onChange] with [(event, 4)], and the page shown is the [page] prop. *)
Theorem pagination_is_controlled (r : nat) (count page : Z) (onChange : nat)
    (itemProps stackProps : jsval) (rest : jsobj) :
  let pagination :=
    child 0 (CustomPagination r count page onChange itemProps stackProps rest) in
  type_of pagination = Some "Pagination"
  /\ prop pagination "count" = VNum count
  /\ prop pagination "page" = VNum page
  /\ prop pagination "onChange" = VFun (FExt onChange)
  /\ (forall event value,
        call_val (prop pagination "onChange") [event; VNum value]
        = Returned [Invoked onChange [event; VNum value]])
  /\ (forall event,
        call_val
          (prop
             (child 0
                (CustomPagination r 10 3 onChange itemProps stackProps rest))
             "onChange")
          [event; VNum 4]
        = Returned [Invoked onChange [event; VNum 4]])
  /\ prop
       (child 0 (CustomPagination r 10 3 onChange itemProps stackProps rest))
       "page"
     = VNum 3.
Proof.
  assert (Hget : forall count page k v,
    k ∈ ["count"; "page"; "onChange"] ->
    get (jsx [Attr "count" (VNum count); Attr "page" (VNum page);
              Attr "onChange" (VFun (FExt onChange))]) k = v ->
    prop (child 0
            (CustomPagination r count page onChange itemProps stackProps rest))
      k = v).
  { intros c pg k v Hk <-.
    unfold prop, child, CustomPagination, props_of, children_of, jsx. simpl.
    rewrite get_union_r.
    - rewrite get_insert_ne; [done|].
      intros <-. apply elem_of_cons in Hk as [?|Hk]; [done|].
      apply elem_of_cons in Hk as [?|Hk]; [done|].
      apply elem_of_cons in Hk as [?|Hk]; [done|].
      by apply elem_of_nil in Hk.
    - apply (rest_without_lookup_in
               ["count"; "page"; "onChange"; "itemProps"; "stackProps"] rest k).
      apply elem_of_cons in Hk as [->|Hk]; [set_solver|].
      apply elem_of_cons in Hk as [->|Hk]; [set_solver|].
      apply elem_of_cons in Hk as [->|Hk]; [set_solver|].
      by apply elem_of_nil in Hk. }
  intros pagination. subst pagination.
  assert (Hc : forall c pg,
    prop (child 0 (CustomPagination r c pg onChange itemProps stackProps rest))
      "onChange" = VFun (FExt onChange)).
  { intros c pg. apply Hget; [set_solver|]. unfold jsx. simpl.
    by rewrite get_insert_eq. }
  assert (Hp : forall c pg,
    prop (child 0 (CustomPagination r c pg onChange itemProps stackProps rest))
      "page" = VNum pg).
  { intros c pg. apply Hget; [set_solver|]. unfold jsx. simpl.
    rewrite get_insert_ne by done. by rewrite get_insert_eq. }
  split; [done|]. split.
  { apply Hget; [set_solver|]. unfold jsx. simpl.
    rewrite !get_insert_ne by done. by rewrite get_insert_eq. }
  split; [apply Hp|]. split; [apply Hc|].
  split; [intros; by rewrite Hc|]. split; [intros; by rewrite Hc|apply Hp].
Qed.

End PaginationFacts.

(** ** More on the modal *)

Module ModalMore.

Import ModalComponent ModalFacts.

(** The three regions of an open modal in a browser. *)
Lemma Modal_open_box env r p :
  window_defined env = true -> isOpen p = true ->
  children_of (modal_box (Modal env r p))
  = [match headerComponent p with
     | Some headerComponent =>
         headerComponent (default "" (title p)) (onRequestClose_of r p)
     | None =>
         Header env (default "" (title p)) (onRequestClose_of r p)
           (headerClassName p)
     end;
     match bodyComponent p with
     | Some bodyComponent =>
         bodyComponent (default VNull (children p)) (onRequestClose_of r p)
     | None => Body env (default VNull (children p)) (bodyClassName p)
     end;
     match footerComponent p with
     | Some footerComponent =>
         footerComponent (or_arrow_null "onConfirm" r (onConfirm p))
           (or_arrow_null "onCancel" r (onCancel p))
     | None =>
         if default false (isConfirmationModal p)
         then
           Footer env (or_arrow_null "onConfirm" r (onConfirm p))
             (or_arrow_null "onCancel" r (onCancel p))
             (default "Confirm" (confirmLabel p))
             (default "Cancel" (cancelLabel p)) (footerClassName p)
         else VNull
     end].
Proof. intros Hw Ho. unfold Modal. by rewrite Hw, Ho. Qed.

Lemma Modal_open_header env r p :
  window_defined env = true -> isOpen p = true -> headerComponent p = None ->
  header_of (Modal env r p)
  = Header env (default "" (title p)) (onRequestClose_of r p)
      (headerClassName p).
Proof.
  intros Hw Ho Hh. unfold header_of, child.
  by rewrite (Modal_open_box env r p Hw Ho), Hh.
Qed.

Lemma Modal_open_footer env r p :
  window_defined env = true -> isOpen p = true ->
  footer_of (Modal env r p)
  = match footerComponent p with
    | Some footerComponent =>
        footerComponent (or_arrow_null "onConfirm" r (onConfirm p))
          (or_arrow_null "onCancel" r (onCancel p))
    | None =>
        if default false (isConfirmationModal p)
        then
          Footer env (or_arrow_null "onConfirm" r (onConfirm p))
            (or_arrow_null "onCancel" r (onCancel p))
            (default "Confirm" (confirmLabel p))
            (default "Cancel" (cancelLabel p)) (footerClassName p)
        else VNull
    end.
Proof.
  intros Hw Ho. unfold footer_of, child.
  by rewrite (Modal_open_box env r p Hw Ho).
Qed.

Lemma click_button type (props : jsobj) (f : fn) label :
  get props "onClick" = VFun f ->
  click (VElem type props label)
  = Returned (call f [VObj (jsx [Attr "type" (VStr "click")])]).
Proof. intros H. unfold click, prop, props_of. by rewrite H. Qed.

Lemma call_or_arrow_null_any site r (f : option nat) args :
  call (or_arrow_null site r f) args
  = from_option (fun f => [Invoked f args]) [] f.
Proof. by destruct f. Qed.

(** X1.  The close button of the default header calls [onRequestClose]
    once, with the click event, whatever the values of
    [requestCloseOnEscClick] and [requestCloseOnBackdropClick]: the two
    flags gate the key and the backdrop only. *)
Theorem header_close_button (env : Env) (r : nat) (p : ModalProps) :
  window_defined env = true ->
  isOpen p = true ->
  headerComponent p = None ->
  let button := child 1 (header_of (Modal env r p)) in
  type_of button = Some "button"
  /\ click button
     = Returned
         (from_option
            (fun f => [Invoked f [VObj (jsx [Attr "type" (VStr "click")])]])
            [] (onRequestClose p)).
Proof.
  intros Hw Ho Hh button. subst button.
  rewrite (Modal_open_header env r p Hw Ho Hh).
  unfold Header, child. simpl. split; [done|].
  rewrite (click_button _ _ (onRequestClose_of r p))
    by (unfold jsx; simpl; by rewrite get_insert_eq).
  f_equal. apply call_or_arrow_null_any.
Qed.

(** [header_close_button] on an open modal that disables both gestures
    would do as well; here on the sample modal. *)
Lemma header_close_button_witness :
  click (child 1 (header_of (Modal browser 0 (modal_props true))))
  = Returned [Invoked 3 [VObj (jsx [Attr "type" (VStr "click")])]].
Proof.
  exact (proj2
           (header_close_button browser 0 (modal_props true) eq_refl eq_refl
              eq_refl)).
Defined.

(** X2.  The footer of an open modal: a [footerComponent] is used whenever
    it is passed, also when [isConfirmationModal] is set; without one the
    footer is [null] unless [isConfirmationModal] is true, and then it is
    the default footer, whose first button shows [confirmLabel] (default
    [Confirm]) and calls [onConfirm] and nothing else, and whose second
    shows [cancelLabel] (default [Cancel]) and calls [onCancel]; neither
    calls [onRequestClose]. *)
Theorem footer_region (env : Env) (r : nat) (p : ModalProps) :
  window_defined env = true ->
  isOpen p = true ->
  let footer := footer_of (Modal env r p) in
  let clicked f :=
    from_option
      (fun f : nat => [Invoked f [VObj (jsx [Attr "type" (VStr "click")])]])
      [] f in
  (forall custom, footerComponent p = Some custom ->
     footer
     = custom (or_arrow_null "onConfirm" r (onConfirm p))
         (or_arrow_null "onCancel" r (onCancel p)))
  /\ (footerComponent p = None ->
      default false (isConfirmationModal p) = false ->
      footer = VNull)
  /\ (footerComponent p = None ->
      isConfirmationModal p = Some true ->
      children_of (child 0 footer)
      = [VStr (default "Confirm" (confirmLabel p))]
      /\ click (child 0 footer) = Returned (clicked (onConfirm p))
      /\ children_of (child 1 footer)
         = [VStr (default "Cancel" (cancelLabel p))]
      /\ click (child 1 footer) = Returned (clicked (onCancel p))).
Proof.
  intros Hw Ho footer clicked. subst footer clicked.
  rewrite (Modal_open_footer env r p Hw Ho).
  split; [by intros fc ->|]. split; [by intros -> ->|].
  intros -> ->. simpl. unfold Footer, child. simpl.
  rewrite (click_button _ _ (or_arrow_null "onConfirm" r (onConfirm p)))
    by (unfold jsx; simpl; by rewrite get_insert_eq).
  rewrite (click_button _ _ (or_arrow_null "onCancel" r (onCancel p)))
    by (unfold jsx; simpl; by rewrite get_insert_eq).
  by rewrite !call_or_arrow_null_any.
Qed.

(** [footer_region] on a confirmation modal with the defaults. *)
Lemma footer_region_witness :
  let p :=
    modal_with true None None (Some 3%nat) (Some true) (Some 7%nat)
      (Some 8%nat) in
  children_of (child 0 (footer_of (Modal browser 0 p))) = [VStr "Confirm"]
  /\ click (child 0 (footer_of (Modal browser 0 p)))
     = Returned [Invoked 7 [VObj (jsx [Attr "type" (VStr "click")])]]
  /\ children_of (child 1 (footer_of (Modal browser 0 p))) = [VStr "Cancel"]
  /\ click (child 1 (footer_of (Modal browser 0 p)))
     = Returned [Invoked 8 [VObj (jsx [Attr "type" (VStr "click")])]].
Proof.
  exact (proj2 (proj2
           (footer_region browser 0
              (modal_with true None None (Some 3%nat) (Some true)
                 (Some 7%nat) (Some 8%nat))
              eq_refl eq_refl))
           eq_refl eq_refl).
Defined.

(** *** Keys, re-renders and the server *)

(** X3.  In a browser, at any point of a modal's life, a key other than
    Escape calls nothing, whether the modal is open or not. *)
Theorem other_keys_do_nothing (env : Env) (p0 : ModalProps)
    (ps : list ModalProps) (key : string) :
  window_defined env = true ->
  key ≠ "Escape" ->
  dispatchEvent "keydown" (keydown key) (document (life env p0 ps)) = [].
Proof.
  intros Hw Hkey.
  destruct (life_listening env p0 ps Hw) as (r' & rl & _ & _ & Hdoc & _).
  destruct (document (life env p0 ps)) as [ls]. simpl in Hdoc. subst ls.
  rewrite dispatch_key.
  apply String.eqb_neq in Hkey. rewrite Hkey.
  by rewrite andb_false_r.
Qed.

(** [other_keys_do_nothing] on Enter and an open modal. *)
Lemma other_keys_do_nothing_witness :
  dispatchEvent "keydown" (keydown "Enter")
    (document (life browser (modal_props true) []))
  = [].
Proof.
  exact (other_keys_do_nothing browser (modal_props true) [] "Enter" eq_refl
           ltac:(discriminate)).
Defined.

(** X4.  A render that changes none of [isOpen], [onOpen], [onClose],
    [requestCloseOnEscClick] and a caller-supplied [onRequestClose] calls
    no callback and leaves the document as it was: the listener that is
    registered stays registered. *)
Theorem rerender_without_change (env : Env) (p0 : ModalProps)
    (ps : list ModalProps) (p : ModalProps) :
  window_defined env = true ->
  let q := current p0 ps in
  isOpen p = isOpen q ->
  onOpen p = onOpen q ->
  onClose p = onClose q ->
  escClick_of p = escClick_of q ->
  onRequestClose p = onRequestClose q ->
  is_Some (onRequestClose q) ->
  trace (life env p0 (ps ++ [p])) = []
  /\ document (life env p0 (ps ++ [p])) = document (life env p0 ps).
Proof.
  intros Hw q Ho Hopen Hclose Hesc Horc [f Hf]. subst q.
  rewrite life_snoc. split.
  - rewrite update_trace, life_lifecycle_deps.
    unfold same_lifecycle_deps, lifecycle_deps.
    rewrite Ho, Hopen, Hclose. by rewrite bool_decide_eq_true_2.
  - destruct (life_listening env p0 ps Hw)
      as (r' & rl & Hr & Hdeps & Hdoc & Hclean).
    unfold update. rewrite Hdeps.
    assert (Hsame : same_listener_deps (listener_deps rl (current p0 ps))
                      (listener_deps (renders (instance (life env p0 ps))) p)
                    = true).
    { unfold same_listener_deps, listener_deps, onRequestClose_of. simpl.
      rewrite Ho, Hesc, Horc, Hf. simpl.
      rewrite !bool_decide_eq_true_2 by done. apply same_fn_refl. }
    by rewrite Hsame.
Qed.

(** [rerender_without_change] on an open modal rendered again with the
    same props. *)
Lemma rerender_without_change_witness :
  trace (life browser (modal_props true) ([] ++ [modal_props true])) = []
  /\ document (life browser (modal_props true) ([] ++ [modal_props true]))
     = document (life browser (modal_props true) []).
Proof.
  exact (rerender_without_change browser (modal_props true) []
           (modal_props true) eq_refl eq_refl eq_refl eq_refl eq_refl eq_refl
           (ex_intro _ 3%nat eq_refl)).
Defined.

(** X5.  When the caller passes no [onRequestClose], every render of a
    mounted modal takes the key listener off the document and registers
    the one it has just made, even if no prop has changed: the default
    [() => null] is a new function in each render and is a dependency of
    the effect.  There is still exactly one listener. *)
Theorem default_onRequestClose_resubscribes (env : Env) (p0 : ModalProps)
    (ps : list ModalProps) (p : ModalProps) :
  window_defined env = true ->
  onRequestClose p = None ->
  let n := renders (instance (life env p0 ps)) in
  (exists r', (r' < n)%nat
     /\ listeners (document (life env p0 ps))
        = [("keydown", closeListener r' (current p0 ps))])
  /\ listeners (document (life env p0 (ps ++ [p])))
     = [("keydown", closeListener n p)].
Proof.
  intros Hw Hnone n. subst n.
  destruct (life_listening env p0 ps Hw)
    as (r' & rl & Hr & Hdeps & Hdoc & Hclean).
  split; [exists r'; split; [lia|done]|].
  rewrite life_snoc. unfold update. rewrite Hdeps, Hclean.
  assert (Hsame : same_listener_deps (listener_deps rl (current p0 ps))
                    (listener_deps (renders (instance (life env p0 ps))) p)
                  = false).
  { unfold same_listener_deps, listener_deps, onRequestClose_of, same_fn.
    simpl. rewrite Hnone. simpl.
    rewrite (bool_decide_eq_false_2
               (ref_of (or_arrow_null "onRequestClose" rl
                          (onRequestClose (current p0 ps)))
                = RAlloc "onRequestClose"
                    (renders (instance (life env p0 ps))))).
    - by rewrite andb_false_r.
    - destruct (onRequestClose (current p0 ps)); simpl; [discriminate|].
      intros H. injection H as H. lia. }
  rewrite Hsame. unfold listener_effect, run_cleanup. rewrite Hw.
  destruct (document (life env p0 ps)) as [ls]. simpl in Hdoc. subst ls.
  by rewrite remove_only_listener.
Qed.

(** [default_onRequestClose_resubscribes] on a modal rendered twice with
    the same props and no [onRequestClose]. *)
Lemma default_onRequestClose_resubscribes_witness :
  let p := modal_with true None None None None None None in
  listeners (document (life browser p ([] ++ [p])))
  = [("keydown", closeListener (renders (instance (life browser p []))) p)].
Proof.
  exact (proj2
           (default_onRequestClose_resubscribes browser
              (modal_with true None None None None None None) []
              (modal_with true None None None None None None)
              eq_refl eq_refl)).
Defined.



Lemma Modal_server env r p :
  window_defined env = false -> Modal env r p = VBool false.
Proof. intros Hw. unfold Modal. rewrite Hw. by destruct (isOpen p). Qed.

(** X7.  Where [window] is not defined the modal returns [false] in every
    render, open or not, and its key effect registers nothing and leaves
    no cleanup behind, however often the modal is rendered. *)
Theorem nothing_without_window (env : Env) (p0 : ModalProps)
    (ps : list ModalProps) :
  window_defined env = false ->
  output (life env p0 ps) = VBool false
  /\ listeners (document (life env p0 ps)) = []
  /\ listener_cleanup (instance (life env p0 ps)) = None.
Proof.
  intros Hw. split.
  - destruct ps as [|p ps _] using rev_ind.
    + unfold life. simpl. rewrite (proj1 (proj2 (mount_parts _ _ _))).
      by apply Modal_server.
    + rewrite life_snoc, update_output. by apply Modal_server.
  - induction ps as [|p ps [IHd IHc]] using rev_ind.
    + unfold life, mount, listener_effect. simpl. by rewrite Hw.
    + rewrite life_snoc. unfold update, listener_effect. rewrite Hw, IHc.
      simpl. by destruct (same_listener_deps _ _).
Qed.

(** [nothing_without_window] on an open modal. *)
Lemma nothing_without_window_witness :
  output (life server (modal_props true) []) = VBool false
  /\ listeners (document (life server (modal_props true) [])) = []
  /\ listener_cleanup (instance (life server (modal_props true) [])) = None.
Proof.
  exact (nothing_without_window server (modal_props true) [] eq_refl).
Defined.

End ModalMore.

(** ** More on the form inputs *)

Module InputMore.

Import InputFacts.

Lemma target_of_change v : target_value [change_event v] = v.
Proof.
  unfold target_value, change_event, get_opt, jsx. simpl.
  rewrite get_insert_eq. by rewrite get_insert_eq.
Qed.

Lemma call_radio r setFieldValue name v :
  call (FRadioOnChange r (Some (setFieldValue, name))) [change_event v]
  = [Invoked setFieldValue [VStr name; v]].
Proof.
  change (call (FRadioOnChange r (Some (setFieldValue, name)))
            [change_event v])
    with [Invoked setFieldValue [VStr name; target_value [change_event v]]].
  by rewrite target_of_change.
Qed.

Section Radio.

Context (formik : option FormikContextType) (r : nat) (name : option string)
  (label : jsval) (options : list FormikRadioGroupOption) (row : option bool)
  (FormControlProps FormLabelProps FormControlLabelProps RadioProps
   FormHelperTextProps FormControlSx FormLabelSx RadioGroupSx
   FormControlLabelSx RadioSx FormHelperTextSx : jsval)
  (rest : jsobj).

Let out : jsval :=
  FormikRadioGroup formik r name label options row FormControlProps
    FormLabelProps FormControlLabelProps RadioProps FormHelperTextProps
    FormControlSx FormLabelSx RadioGroupSx FormControlLabelSx RadioSx
    FormHelperTextSx rest.

Lemma radio_onChange :
  prop (radio_control out) "onChange"
  = VFun
      (FRadioOnChange r
         (match formik, truthy_name name with
          | Some formik, Some name => Some (setFieldValue formik, name)
          | _, _ => None
          end)).
Proof.
  unfold out, radio_control, FormikRadioGroup.
  destruct (bind_text formik r name) as [field meta]. simpl.
  jsx_get. done.
Qed.

(** X8.  A change of the radio group inside a form, with a non-empty
    name, calls the form's [setFieldValue] once with the name and the
    value of the event's target, and nothing else: neither the [onChange]
    of the field nor an [onChange] the caller passes is called.  Outside a
    form, or without a name, a change calls nothing at all, whatever
    [onChange] the caller passes. *)
Theorem radio_change (v : jsval) :
  let changed :=
    call_val (prop (radio_control out) "onChange") [change_event v] in
  (forall fk n, formik = Some fk -> truthy_name name = Some n ->
     changed = Returned [Invoked (setFieldValue fk) [VStr n; v]])
  /\ (formik = None \/ truthy_name name = None -> changed = Returned []).
Proof.
  intros changed. subst changed. rewrite radio_onChange.
  unfold call_val. split.
  - intros fk n -> ->.
    exact (f_equal Returned (call_radio r (setFieldValue fk) n v)).
  - intros Hd. destruct formik as [fk|]; [|done].
    destruct Hd as [Hd|Hd]; [done|]. by rewrite Hd.
Qed.

(** X9.  The radio group has one [FormControlLabel] for each option, in
    the order of the options; each shows the option's label and carries
    its value, unless [FormControlLabelProps] has a [label] or a [value]
    of its own, which then replaces that of every option.  The legend is
    rendered when [label] is truthy; otherwise the child in its place is
    [label] itself. *)
Theorem radio_options :
  length (children_of (radio_control out)) = length options
  /\ (forall i option, options !! i = Some option ->
        let item := child i (radio_control out) in
        type_of item = Some "FormControlLabel"
        /\ prop item "value"
           = default (VStr (option_value option))
               (spread FormControlLabelProps !! "value")
        /\ prop item "label"
           = default (VStr (option_label option))
               (spread FormControlLabelProps !! "label"))
  /\ child 0 out
     = (if truthy label
        then
          VElem "FormLabel"
            (jsx [Spread (spread FormLabelProps); Attr "sx" FormLabelSx])
            [label]
        else label).
Proof.
  unfold out, radio_control, FormikRadioGroup.
  destruct (bind_text formik r name) as [field meta]. simpl.
  split; [unfold child; simpl; by rewrite length_map|].
  split; [|done].
  intros i option Hi. unfold child. simpl.
  rewrite list_lookup_fmap, Hi. simpl.
  split; [done|]. unfold prop, props_of, jsx. simpl.
  rewrite !(get_insert_ne _ "sx") by done.
  rewrite !get_union_default.
  split; f_equal; by repeat rewrite ?get_insert_eq, ?get_insert_ne by done.
Qed.

End Radio.

(** [radio_change] inside the sample form. *)
Lemma radio_change_witness :
  call_val
    (prop
       (radio_control
          (FormikRadioGroup (Some touched_form) 0 (Some "plan") VUndef []
             None VUndef VUndef VUndef VUndef VUndef VUndef VUndef VUndef
             VUndef VUndef VUndef
             {[ "onChange" := VFun (FExt 5) ]}))
       "onChange")
    [change_event (VStr "pro")]
  = Returned [Invoked 3 [VStr "plan"; VStr "pro"]].
Proof.
  exact (proj1
           (radio_change (Some touched_form) 0 (Some "plan") VUndef [] None
              VUndef VUndef VUndef VUndef VUndef VUndef VUndef VUndef VUndef
              VUndef VUndef {[ "onChange" := VFun (FExt 5) ]} (VStr "pro"))
           touched_form "plan" eq_refl eq_refl).
Defined.

(** [radio_options] on two options. *)
Lemma radio_options_witness :
  let item :=
    child 1
      (radio_control
         (FormikRadioGroup None 0 None VUndef
            [mkOption "Free" "free"; mkOption "Pro" "pro"] None VUndef
            VUndef VUndef VUndef VUndef VUndef VUndef VUndef VUndef VUndef
            VUndef ∅)) in
  type_of item = Some "FormControlLabel"
  /\ prop item "value" = default (VStr "pro") (spread VUndef !! "value")
  /\ prop item "label" = default (VStr "Pro") (spread VUndef !! "label").
Proof.
  exact (proj1 (proj2
           (radio_options None 0 None VUndef
              [mkOption "Free" "free"; mkOption "Pro" "pro"] None VUndef
              VUndef VUndef VUndef VUndef VUndef VUndef VUndef VUndef VUndef
              VUndef ∅))
           1%nat (mkOption "Pro" "pro") eq_refl).
Defined.

(** X10.  The textarea never receives a [style] or an [sx] of the caller:
    its [style] is [errorStyles.textarea] while an error is shown and the
    empty object otherwise, whatever the other props hold, and the output
    is the same for every [sx].  The error text is red unless
    [errorStyles.errorText] names another colour. *)
Theorem textarea_style (formik : option FormikContextType) (r : nat)
    (sx : jsval) (name : option string) (errorStyles : jsval)
    (rest : jsobj) :
  let meta := (bind_text formik r name).2 in
  let out := FormikCustomTextarea formik r sx name errorStyles rest in
  prop (textarea_control out) "style"
  = VObj (if showError meta then spread (get_opt errorStyles "textarea")
          else ∅)
  /\ props_of (textarea_control out) !! "sx" = None
  /\ (forall sx', FormikCustomTextarea formik r sx' name errorStyles rest = out)
  /\ (showError meta = true ->
      get_opt (prop (child 1 out) "style") "color"
      = default (VStr "red")
          (spread (get_opt errorStyles "errorText") !! "color")).
Proof.
  intros meta out. subst meta out.
  unfold textarea_control, FormikCustomTextarea.
  destruct (bind_text formik r name) as [field meta]. simpl.
  split.
  { jsx_get. destruct (showError meta); simpl; [|done].
    by rewrite (right_id_L ∅ (∪)). }
  split; [|split; [done|]].
  - unfold child, props_of, jsx. simpl.
    rewrite !lookup_insert_ne by done.
    rewrite lookup_union.
    assert (Hf : (field_obj field ∪ ∅) !! "sx" = None).
    { rewrite (right_id_L ∅ (∪)). unfold field_obj, jsx. simpl.
      destruct (field_checked field), (field_multiple field); simpl;
        repeat (rewrite lookup_union_r;
                [|by (apply lookup_singleton_ne || apply lookup_empty)]);
        by simplify_map_eq. }
    by rewrite Hf, lookup_delete_eq.
  - intros ->. unfold child, prop, props_of, jsx. simpl.
    rewrite get_insert_eq. simpl. rewrite get_union_default.
    f_equal; by repeat rewrite ?get_insert_eq, ?get_insert_ne by done.
Qed.

(** [textarea_style] on a touched field with an error. *)
Lemma textarea_style_witness :
  get_opt
    (prop
       (child 1
          (FormikCustomTextarea (Some touched_form) 0 VUndef (Some "bio")
             VUndef ∅)) "style") "color"
  = default (VStr "red") (spread (get_opt VUndef "errorText") !! "color").
Proof.
  exact (proj2 (proj2 (proj2
           (textarea_style (Some touched_form) 0 VUndef (Some "bio") VUndef
              ∅)))
           eq_refl).
Defined.

Lemma field_obj_name (field : FieldInputProps) :
  field_obj field !! "name" = Some (VStr (field_name field)).
Proof.
  unfold field_obj, jsx. simpl.
  destruct (field_checked field), (field_multiple field); simpl;
    repeat (rewrite lookup_union_r;
            [|by (apply lookup_singleton_ne || apply lookup_empty)]);
    by simplify_map_eq.
Qed.

(** X11.  The [name] attribute of the control is the caller's [name] as it
    is, [undefined] when there is none, in the text field, the textarea,
    the checkbox and the switch: the name of the field object, and the
    [''] made up outside a form, never reach them.  The radio group is
    the exception: it is given no [name] attribute after the spreads, so
    its name is that of the field object. *)
Theorem control_name (formik : option FormikContextType) (r : nat)
    (name : option string) :
  (forall rest,
     prop (textfield_control (FormikTextField formik r name rest)) "name"
     = of_str name)
  /\ (forall sx errorStyles rest,
        prop (textarea_control
                (FormikCustomTextarea formik r sx name errorStyles rest))
          "name"
        = of_str name)
  /\ (forall label labelSx checkboxSx helperTextSx rest,
        prop (checkbox_control
                (FormikCheckbox formik r name label labelSx checkboxSx
                   helperTextSx rest)) "name"
        = of_str name)
  /\ (forall label labelPlacement FormControlProps FormControlLabelProps rest,
        spread FormControlLabelProps !! "control" = None ->
        prop (switch_control
                (FormikSwitch formik r name label labelPlacement
                   FormControlProps FormControlLabelProps rest)) "name"
        = of_str name)
  /\ (forall label options row FormControlProps FormLabelProps
        FormControlLabelProps RadioProps FormHelperTextProps FormControlSx
        FormLabelSx RadioGroupSx FormControlLabelSx RadioSx FormHelperTextSx
        rest,
        prop (radio_control
                (FormikRadioGroup formik r name label options row
                   FormControlProps FormLabelProps FormControlLabelProps
                   RadioProps FormHelperTextProps FormControlSx FormLabelSx
                   RadioGroupSx FormControlLabelSx RadioSx FormHelperTextSx
                   rest)) "name"
        = VStr (field_name (bind_text formik r name).1)).
Proof.
  split; [|split; [|split; [|split]]].
  - intros rest. unfold textfield_control, FormikTextField.
    destruct (bind_text formik r name) as [field meta]. simpl. by jsx_get.
  - intros sx errorStyles rest. unfold textarea_control, FormikCustomTextarea.
    destruct (bind_text formik r name) as [field meta]. simpl. by jsx_get.
  - intros label labelSx checkboxSx helperTextSx rest.
    unfold checkbox_control, FormikCheckbox.
    destruct (bind_checkbox formik r name) as [field meta]. simpl.
    by jsx_get.
  - intros label labelPlacement FormControlProps FormControlLabelProps rest
      Hc.
    unfold switch_control, FormikSwitch.
    destruct (bind_checkbox formik r name) as [field meta]. simpl.
    jsx_get. rewrite (get_union_r _ _ _ Hc). by jsx_get.
  - intros. unfold radio_control, FormikRadioGroup.
    destruct (bind_text formik r name) as [field meta]. simpl.
    jsx_get. rewrite get_union_r by apply lookup_delete_eq.
    unfold get. rewrite (right_id_L ∅ (∪)). by rewrite field_obj_name.
Qed.

(** [control_name] on a switch outside a form. *)
Lemma control_name_witness :
  prop (switch_control (FormikSwitch None 0 None VUndef None VUndef VUndef ∅))
    "name"
  = VUndef.
Proof.
  exact (proj1 (proj2 (proj2 (proj2 (control_name None 0 None))))
           VUndef None VUndef VUndef ∅ eq_refl).
Defined.

End InputMore.

(** ** More on the components that take a list of items *)

Module ListMore.

Import Lists ListFacts.

Lemma is_last_spec (i n : nat) :
  Z.eqb (Z.of_nat i) (Z.of_nat n - 1) = bool_decide (S i = n).
Proof.
  destruct (decide (S i = n)) as [<-|Hne].
  - rewrite bool_decide_eq_true_2 by done. apply Z.eqb_eq. lia.
  - rewrite bool_decide_eq_false_2 by done. apply Z.eqb_neq. lia.
Qed.

(** X12.  A mounted breadcrumb with items has one child for each item, in
    order.  The child is a link exactly when the item has a non-empty
    [href] and is not the last item; the last item is never a link.
    Either way the item's label is what is shown.  Before the mount
    effect has run, the same props render nothing and warn of nothing. *)
Theorem breadcrumb_items (item0 : BreadcrumbItem)
    (more : list BreadcrumbItem) (separator : option jsval)
    (containerStyle linkStyle : jsval)
    (maxItems itemsBeforeCollapse itemsAfterCollapse : option Z)
    (expandText : option string) (rest : jsobj) :
  let items := item0 :: more in
  CustomBreadcrumb false (Some items) separator containerStyle linkStyle
    maxItems itemsBeforeCollapse itemsAfterCollapse expandText rest
  = ([], Returned VNull)
  /\ exists node,
       CustomBreadcrumb true (Some items) separator containerStyle linkStyle
         maxItems itemsBeforeCollapse itemsAfterCollapse expandText rest
       = ([], Returned node)
       /\ length (children_of node) = length items
       /\ forall i item, items !! i = Some item ->
            let crumb := child i node in
            is_link crumb
            = truthy (of_str (crumb_href item))
              && negb (bool_decide (S i = length items))
            /\ (if is_link crumb
                then children_of (child 0 crumb) = [crumb_label item]
                else type_of crumb = Some "MuiTypography"
                     /\ children_of crumb = [crumb_label item]).
Proof.
  intros items. split; [done|].
  eexists. split; [reflexivity|].
  split; [simpl; by rewrite length_imap|].
  intros i item Hi crumb. subst crumb.
  unfold child. cbn [children_of].
  rewrite list_lookup_imap, Hi. cbn [fmap option_fmap option_map default].
  rewrite is_last_spec.
  destruct (truthy (of_str (crumb_href item))
            && negb (bool_decide (S i = length items)));
    unfold is_link, child, id; simpl; by repeat split.
Qed.

(** [breadcrumb_items] on a path of two items, before the mount effect
    has run. *)
Lemma breadcrumb_items_witness :
  CustomBreadcrumb false
    (Some [mkBreadcrumbItem (VStr "Home") (Some "/") VUndef;
           mkBreadcrumbItem (VStr "Users") (Some "/users") VUndef])
    None VUndef VUndef None None None None ∅
  = ([], Returned VNull).
Proof.
  exact (proj1
           (breadcrumb_items (mkBreadcrumbItem (VStr "Home") (Some "/") VUndef)
              [mkBreadcrumbItem (VStr "Users") (Some "/users") VUndef]
              None VUndef VUndef None None None None ∅)).
Defined.

(** X13.  A [value] or an [onChange] among the other props of CustomTabs
    replaces the one the component wires to the tab bar: with a caller's
    [onChange] the bar no longer reaches [handleChange], and with a
    caller's [value] the bar shows that value as selected.  The content
    box does not see the other props: it follows the component's own
    active tab. *)
Theorem tabs_wiring_overridden (r : nat) (activeTab : tabval)
    (items : list CustomTabItem) (containerStyle tabProps boxProps : jsval)
    (direction : option string) (rest : jsobj) :
  exists stack,
    CustomTabs r activeTab (Some items) containerStyle tabProps boxProps
      direction rest
    = ([], Returned stack)
    /\ prop (child 0 stack) "value"
       = default (val_of activeTab) (rest !! "value")
    /\ prop (child 0 stack) "onChange"
       = default (VFun (FHandleChange r)) (rest !! "onChange")
    /\ forall rest', exists stack',
         CustomTabs r activeTab (Some items) containerStyle tabProps boxProps
           direction rest'
         = ([], Returned stack')
         /\ children_of (child 1 stack') = children_of (child 1 stack).
Proof.
  eexists. split; [reflexivity|].
  assert (Hnot : forall k : string,
            k = "value" \/ k = "onChange" ->
            k ∉ ["items"; "containerStyle"; "tabProps"; "boxProps";
                 "direction"]).
  { intros k [-> | ->]; rewrite !not_elem_of_cons;
      repeat split; try done; apply not_elem_of_nil. }
  split; [|split].
  - unfold prop, child, props_of, children_of, jsx. simpl.
    rewrite get_union_default.
    rewrite <- (rest_without_lookup_notin
                  ["items"; "containerStyle"; "tabProps"; "boxProps";
                   "direction"] rest "value") by (apply Hnot; by left).
    f_equal; by repeat rewrite ?get_insert_eq, ?get_insert_ne by done.
  - unfold prop, child, props_of, children_of, jsx. simpl.
    rewrite get_union_default.
    rewrite <- (rest_without_lookup_notin
                  ["items"; "containerStyle"; "tabProps"; "boxProps";
                   "direction"] rest "onChange") by (apply Hnot; by right).
    f_equal; by repeat rewrite ?get_insert_eq, ?get_insert_ne by done.
  - intros rest'. eexists. split; reflexivity.
Qed.

(** What the content box shows in a render, in terms of the items. *)
Lemma tabs_content (r : nat) (activeTab : tabval)
    (items : list CustomTabItem) (containerStyle tabProps boxProps : jsval)
    (direction : option string) (rest : jsobj) :
  exists stack,
    CustomTabs r activeTab (Some items) containerStyle tabProps boxProps
      direction rest
    = ([], Returned stack)
    /\ map children_of (rendered_children (child 1 stack))
       = map (fun item => [tab_content item])
           (List.filter (fun item => bool_decide (tab_value item = activeTab))
              items).
Proof.
  eexists. split; [reflexivity|].
  unfold rendered_children, child. simpl children_of.
  rewrite content_of_active. rewrite <- list_fmap_compose.
  by apply list_fmap_ext.
Qed.

(** The handler the tab bar is given. *)
Lemma tabs_onChange (r : nat) (activeTab : tabval)
    (items : list CustomTabItem) (containerStyle tabProps boxProps : jsval)
    (direction : option string) (rest : jsobj) :
  exists stack,
    CustomTabs r activeTab (Some items) containerStyle tabProps boxProps
      direction rest
    = ([], Returned stack)
    /\ prop (child 0 stack) "onChange"
       = default (VFun (FHandleChange r)) (rest !! "onChange").
Proof.
  eexists. split; [reflexivity|].
  unfold prop, child, props_of, children_of, jsx. simpl.
  rewrite get_union_default.
  rewrite <- (rest_without_lookup_notin
                ["items"; "containerStyle"; "tabProps"; "boxProps";
                 "direction"] rest "onChange")
    by (rewrite !not_elem_of_cons; repeat split; try done;
        apply not_elem_of_nil).
  f_equal; by repeat rewrite ?get_insert_eq, ?get_insert_ne by done.
Qed.

Lemma activeTab_after_set (v s : tabval) :
  activeTab_after [SetState "activeTab" (val_of v)] s = v.
Proof. by destruct v. Qed.

(** X14.  When the caller passes no [onChange], a change of the tab bar
    to the value [v] sets the active tab to [v], and the next render shows
    the contents of exactly the items whose value is [v]: nothing at all
    when no item has that value. *)
Theorem tabs_select (r r' : nat) (activeTab v : tabval)
    (items : list CustomTabItem) (containerStyle tabProps boxProps : jsval)
    (direction : option string) (rest : jsobj) (event : jsval) :
  rest !! "onChange" = None ->
  exists stack events stack',
    CustomTabs r activeTab (Some items) containerStyle tabProps boxProps
      direction rest
    = ([], Returned stack)
    /\ call_val (prop (child 0 stack) "onChange") [event; val_of v]
       = Returned events
    /\ activeTab_after events activeTab = v
    /\ CustomTabs r' (activeTab_after events activeTab) (Some items)
         containerStyle tabProps boxProps direction rest
       = ([], Returned stack')
    /\ map children_of (rendered_children (child 1 stack'))
       = map (fun item => [tab_content item])
           (List.filter (fun item => bool_decide (tab_value item = v)) items).
Proof.
  intros Hnone.
  destruct (tabs_onChange r activeTab items containerStyle tabProps
              boxProps direction rest) as (stack & Hstack & Hchange).
  rewrite Hnone in Hchange. simpl in Hchange.
  destruct (tabs_content r' v items containerStyle tabProps boxProps
              direction rest) as (stack' & Hstack' & Hcontent).
  exists stack, [SetState "activeTab" (val_of v)], stack'.
  split; [done|]. split; [by rewrite Hchange|].
  split; [apply activeTab_after_set|].
  by rewrite activeTab_after_set.
Qed.

(** [tabs_select] on two tabs, from the first to the second. *)
Lemma tabs_select_witness :
  exists stack events stack',
    CustomTabs 0 (TStr "a")
      (Some [mkTabItem (VStr "A") (VStr "first") (TStr "a");
             mkTabItem (VStr "B") (VStr "second") (TStr "b")])
      VUndef VUndef VUndef None ∅
    = ([], Returned stack)
    /\ call_val (prop (child 0 stack) "onChange") [VNull; val_of (TStr "b")]
       = Returned events
    /\ activeTab_after events (TStr "a") = TStr "b"
    /\ CustomTabs 1 (activeTab_after events (TStr "a"))
         (Some [mkTabItem (VStr "A") (VStr "first") (TStr "a");
                mkTabItem (VStr "B") (VStr "second") (TStr "b")])
         VUndef VUndef VUndef None ∅
       = ([], Returned stack')
    /\ map children_of (rendered_children (child 1 stack'))
       = map (fun item => [tab_content item])
           (List.filter (fun item => bool_decide (tab_value item = TStr "b"))
              [mkTabItem (VStr "A") (VStr "first") (TStr "a");
               mkTabItem (VStr "B") (VStr "second") (TStr "b")]).
Proof.
  exact (tabs_select 0 1 (TStr "a") (TStr "b")
           [mkTabItem (VStr "A") (VStr "first") (TStr "a");
            mkTabItem (VStr "B") (VStr "second") (TStr "b")]
           VUndef VUndef VUndef None ∅ VNull eq_refl).
Defined.

(** X15.  When the value of the first item is the empty string, the tabs
    start with the active tab [0], so the first item is not shown on the
    first render: what is shown are the items after it whose value is the
    number [0], and nothing if there is none. *)
Theorem tabs_first_value_empty (item : CustomTabItem)
    (items : list CustomTabItem) (containerStyle tabProps boxProps : jsval)
    (direction : option string) (rest : jsobj) :
  tab_value item = TStr "" ->
  initial_activeTab (Some (item :: items)) = Returned (TNum 0)
  /\ exists stack,
       CustomTabs_mount (Some (item :: items)) containerStyle tabProps
         boxProps direction rest
       = ([], Returned stack)
       /\ map children_of (rendered_children (child 1 stack))
          = map (fun item => [tab_content item])
              (List.filter (fun item => bool_decide (tab_value item = TNum 0))
                 items).
Proof.
  intros Hv.
  assert (Hinit : initial_activeTab (Some (item :: items))
                  = Returned (TNum 0)).
  { unfold initial_activeTab. simpl. by rewrite Hv. }
  split; [done|].
  unfold CustomTabs_mount. rewrite Hinit.
  destruct (tabs_content 0 (TNum 0) (item :: items) containerStyle tabProps
              boxProps direction rest) as (stack & Hstack & Hcontent).
  exists stack. split; [done|].
  rewrite Hcontent. simpl List.filter. rewrite Hv.
  by rewrite bool_decide_eq_false_2 by discriminate.
Qed.

(** [tabs_first_value_empty] on a single tab whose value is empty: no
    content is shown. *)
Lemma tabs_first_value_empty_witness :
  exists stack,
    CustomTabs_mount (Some [mkTabItem (VStr "A") (VStr "first") (TStr "")])
      VUndef VUndef VUndef None ∅
    = ([], Returned stack)
    /\ map children_of (rendered_children (child 1 stack))
       = map (fun item => [tab_content item])
           (List.filter (fun item => bool_decide (tab_value item = TNum 0))
              []).
Proof.
  exact (proj2
           (tabs_first_value_empty
              (mkTabItem (VStr "A") (VStr "first") (TStr "")) [] VUndef
              VUndef VUndef None ∅ eq_refl)).
Defined.

(** X16.  The accordion has one panel for each item, in order, showing
    the item's title and content.  A [defaultExpanded] among the other
    props replaces that of every item.  Without an [items] array the
    render throws. *)
Theorem accordion_items (items : list CustomAccordionItem)
    (containerStyle accordionSummary accordionDetails : jsval)
    (rest : jsobj) :
  (exists node,
     CustomAccordion (Some items) containerStyle accordionSummary
       accordionDetails rest
     = ([], Returned node)
     /\ length (children_of node) = length items
     /\ forall i item, items !! i = Some item ->
          let panel := child i node in
          prop panel "defaultExpanded"
          = default (of_bool (acc_defaultExpanded item))
              (rest !! "defaultExpanded")
          /\ children_of (child 0 (child 0 panel)) = [acc_title item]
          /\ children_of (child 0 (child 1 panel)) = [acc_content item])
  /\ exists err,
       CustomAccordion None containerStyle accordionSummary accordionDetails
         rest
       = ([], Threw err).
Proof.
  split; [|by eexists].
  eexists. split; [reflexivity|].
  split; [simpl; by rewrite length_imap|].
  intros i item Hi panel. subst panel.
  unfold child. cbn [children_of].
  rewrite list_lookup_imap, Hi. cbn [fmap option_fmap option_map default].
  split; [|done].
  unfold prop, props_of, jsx. simpl. rewrite get_union_default.
  rewrite <- (rest_without_lookup_notin
                ["items"; "containerStyle"; "accordionSummary";
                 "accordionDetails"] rest "defaultExpanded")
    by (rewrite !not_elem_of_cons; repeat split; try done;
        apply not_elem_of_nil).
  f_equal; by repeat rewrite ?get_insert_eq, ?get_insert_ne by done.
Qed.

End ListMore.

(** ** Pagination items, buttons and the theme *)

Module WrapperFacts.

Import Pagination Buttons Theme.

(** X17.  In CustomPagination the caller's props have the last word over
    what the component sets beside them: an entry of [itemProps] replaces
    the entry of the same name in an item the pagination hands to
    [renderItem], a [renderItem] among the other props replaces the
    component's own, and an entry of [stackProps] replaces the [spacing],
    [direction] or [justifyContent] of the surrounding stack. *)
Theorem pagination_overrides (r : nat) (count page : Z) (onChange : nat)
    (itemProps stackProps : jsval) (rest : jsobj) :
  let out :=
    CustomPagination r count page onChange itemProps stackProps rest in
  (forall item k,
     prop (renderItem itemProps item) k
     = default (get (spread item) k) (spread itemProps !! k))
  /\ prop (child 0 out) "renderItem"
     = default (VFun (FRenderItem r itemProps)) (rest !! "renderItem")
  /\ prop out "spacing" = default (VNum 2) (spread stackProps !! "spacing")
  /\ prop out "direction"
     = default (VStr "row") (spread stackProps !! "direction")
  /\ prop out "justifyContent"
     = default (VStr "center") (spread stackProps !! "justifyContent").
Proof.
  intros out. subst out. split; [|split].
  - intros item k. unfold renderItem, prop, props_of, jsx. simpl.
    rewrite get_union_default. f_equal.
    rewrite get_union_default. unfold get. rewrite lookup_empty.
    by destruct (spread item !! k).
  - unfold CustomPagination, prop, child, props_of, children_of, jsx. simpl.
    rewrite get_union_default.
    rewrite <- (rest_without_lookup_notin
                  ["count"; "page"; "onChange"; "itemProps"; "stackProps"]
                  rest "renderItem")
      by (rewrite !not_elem_of_cons; repeat split; try done;
          apply not_elem_of_nil).
    f_equal; by repeat rewrite ?get_insert_eq, ?get_insert_ne by done.
  - unfold CustomPagination, prop, props_of, jsx. simpl.
    rewrite !get_union_default.
    repeat split;
      f_equal; by repeat rewrite ?get_insert_eq, ?get_insert_ne by done.
Qed.

(** X18.  A CustomButton that is loading is disabled whatever its
    [disabled] prop says, and shows the loading indicator, or the text
    [Loading...] when there is none, in place of its children; one that is
    not loading shows its children and is disabled as asked.  Neither
    [loading] nor [loadingIndicator] is passed on to the button, and the
    other props cannot change [disabled]. *)
Theorem button_loading (variant color size : option string)
    (loading : option bool) (loadingIndicator : jsval)
    (disabled : option bool) (startIcon endIcon : jsval)
    (fullWidth : option bool) (children : jsval) (rest : jsobj) :
  let out :=
    CustomButton variant color size loading loadingIndicator disabled
      startIcon endIcon fullWidth children rest in
  prop out "disabled"
  = VBool (default false disabled || default false loading)
  /\ children_of out
     = [if default false loading
        then (if truthy loadingIndicator then loadingIndicator
              else VStr "Loading...")
        else children]
  /\ props_of out !! "loading" = None
  /\ props_of out !! "loadingIndicator" = None.
Proof.
  intros out. subst out.
  unfold CustomButton, prop, props_of, children_of, jsx. simpl.
  split; [|split; [done|]].
  - rewrite get_union_r
      by (by rewrite !lookup_delete_ne, lookup_delete_eq by done).
    repeat rewrite get_insert_ne by done. rewrite get_insert_eq.
    unfold js_or. simpl. by destruct (default false disabled).
  - split;
      (rewrite lookup_union_r;
       [by repeat rewrite lookup_insert_ne by done
       |by rewrite ?lookup_delete_ne, lookup_delete_eq by done]).
Qed.

(** X19.  When [themeOptions] has a [palette] entry, the object given to
    [createTheme] has exactly that palette, because the options are spread
    after the palette the component builds: [darkMode] then changes
    nothing, neither in the object nor in the element returned.  Without
    a [palette] entry the palette is the component's, whose mode is [dark]
    when [darkMode] is true and [light] otherwise. *)
Theorem theme_palette (createTheme : jsobj -> jsval) (children : jsval)
    (themeOptions : jsobj) (darkMode : option bool) :
  (forall palette, themeOptions !! "palette" = Some palette ->
     get (theme_argument (Some themeOptions) darkMode) "palette" = palette
     /\ forall darkMode',
          theme_argument (Some themeOptions) darkMode'
          = theme_argument (Some themeOptions) darkMode
          /\ CustomThemeProvider createTheme children (Some themeOptions)
               darkMode'
             = CustomThemeProvider createTheme children (Some themeOptions)
                 darkMode)
  /\ (themeOptions !! "palette" = None ->
      get_opt (get (theme_argument (Some themeOptions) darkMode) "palette")
        "mode"
      = VStr (if default false darkMode then "dark" else "light")).
Proof.
  split.
  - intros palette Hp.
    assert (Hsame : forall d,
              theme_argument (Some themeOptions) d
              = theme_argument (Some themeOptions) darkMode).
    { intros d. unfold theme_argument, jsx. simpl. apply map_eq. intros k.
      rewrite !lookup_union.
      destruct (decide (k = "palette")) as [->|Hk].
      - by rewrite Hp, !lookup_insert_eq.
      - by rewrite !lookup_insert_ne by done. }
    split.
    + unfold theme_argument, jsx. simpl. by apply get_union_l.
    + intros d. split; [apply Hsame|].
      unfold CustomThemeProvider. by rewrite Hsame.
  - intros Hnone. unfold theme_argument, jsx. simpl.
    rewrite get_union_r by done. rewrite get_insert_eq.
    unfold get at 1. rewrite Hnone. simpl.
    rewrite get_union_r by apply lookup_empty. by rewrite get_insert_eq.
Qed.

(** [theme_palette] on options that set the primary colour only: dark mode
    is lost. *)
Lemma theme_palette_witness :
  get
    (theme_argument
       (Some {[ "palette" := VObj {[ "primary" := VStr "#556cd6" ]} ]})
       (Some true))
    "palette"
  = VObj {[ "primary" := VStr "#556cd6" ]}.
Proof.
  exact (proj1
           (proj1
              (theme_palette (fun _ => VUndef) VNull
                 {[ "palette" := VObj {[ "primary" := VStr "#556cd6" ]} ]}
                 (Some true))
              (VObj {[ "primary" := VStr "#556cd6" ]}) eq_refl)).
Defined.

End WrapperFacts.
